(** * Google Trends collection for banned books: [get_trends_data]

    A shallow embedding of [scripts/script.py].  The function under study,
    [get_trends_data], parses a ban date, derives two 90-day windows, asks
    the trends provider for one series per window, reduces both to summary
    statistics and packs a result dictionary; failures of the provider are
    retried with a fixed back-off.

    Conventions of the embedding:
    - Python and numpy floats are IEEE binary64 values ([PrimFloat.float]).
    - a [datetime] at midnight is its proleptic Gregorian ordinal
      ([date.toordinal()]), the quantity on which [timedelta] arithmetic
      works;
    - the function's effects (provider calls, [time.sleep], [logging]) are
      recorded in a trace, and the provider is a function of the number of
      calls it has answered so far;
    - the function's local variables that outlive one pass of the retry
      loop ([before_values], [after_values]) are part of the threaded
      state, unbound at entry. *)

From Stdlib Require Import List String Ascii ZArith Bool Lia Floats DecimalString.
Import ListNotations.

(** ** Exceptions and results *)

(** The exceptions that can occur while the function runs.  All four are
    subclasses of [Exception]. *)
Inductive exn : Type :=
| ProviderError (msg : string)      (* anything raised inside pytrends *)
| UnboundLocalError (name : string) (* a NameError: local read before assignment *)
| ValueError (msg : string)
| OverflowError (msg : string).

(** [str(e)]. *)
Definition str (e : exn) : string :=
  match e with
  | ProviderError msg => msg
  | UnboundLocalError name =>
      ("cannot access local variable '" ++ name
         ++ "' where it is not associated with a value")%string
  | ValueError msg => msg
  | OverflowError msg => msg
  end.

Inductive Result (A : Type) : Type :=
| Ok (a : A)
| Raise (e : exn).
Arguments Ok {A} a.
Arguments Raise {A} e.

(** ** numpy reductions and [round] *)

Module Numpy.
Local Open Scope float_scope.

Definition len (l : list float) : float :=
  PrimFloat.of_uint63 (Uint63.of_Z (Z.of_nat (List.length l))).

(** The sum, added from left to right.  (numpy adds long arrays in blocks;
    on whole-number scores, as Google Trends gives them, every order yields
    the same, exact sum.) *)
Definition sum (l : list float) : float := fold_left PrimFloat.add l 0.

(** [np.mean]: the sum divided by the count ([nan] on an empty array). *)
Definition mean (l : list float) : float := sum l / len l.

(** [np.maximum] and [np.minimum] of two scalars; a [nan] on the left wins. *)
Definition maximum (a b : float) : float :=
  if (b <=? a) || PrimFloat.is_nan a then a else b.
Definition minimum (a b : float) : float :=
  if (a <=? b) || PrimFloat.is_nan a then a else b.

(** [np.max] and [np.min] have no identity: an empty array is an error. *)
Definition max (l : list float) : Result float :=
  match l with
  | [] => Raise (ValueError
      "zero-size array to reduction operation maximum which has no identity")
  | x :: l' => Ok (fold_left maximum l' x)
  end.
Definition min (l : list float) : Result float :=
  match l with
  | [] => Raise (ValueError
      "zero-size array to reduction operation minimum which has no identity")
  | x :: l' => Ok (fold_left minimum l' x)
  end.

(** [np.std]: square root of the mean squared deviation from the mean. *)
Definition std (l : list float) : float :=
  let arrmean := mean l in
  PrimFloat.sqrt (mean (map (fun x => (x - arrmean) * (x - arrmean)) l)).

Definition two52 : float := 4503599627370496.

(** [np.rint]: nearest integer, ties to even (the sign of a zero result
    is not tracked). *)
Definition rint (x : float) : float :=
  if PrimFloat.abs x <? two52
  then if x <? 0 then (x - two52) + two52 else (x + two52) - two52
  else x.

(** [round(x, 2)] as numpy scalars compute it: scale, [rint], unscale. *)
Definition round2 (x : float) : float := rint (x * 100) / 100.
End Numpy.

(** ** Dates *)

Module Datetime.
Local Open Scope Z_scope.

(** A [datetime] at midnight, held as its ordinal: day 1 is 0001-01-01. *)
Definition datetime : Type := Z.

Definition MAXORDINAL : Z := 3652059.  (* 9999-12-31 *)

Definition is_leap (year : Z) : bool :=
  (year mod 4 =? 0) && (negb (year mod 100 =? 0) || (year mod 400 =? 0)).

Definition days_in_month (year month : Z) : Z :=
  if month =? 2 then (if is_leap year then 29 else 28)
  else if (month =? 4) || (month =? 6) || (month =? 9) || (month =? 11)
       then 30 else 31.

Definition days_before_year (year : Z) : Z :=
  let y := year - 1 in y * 365 + y / 4 - y / 100 + y / 400.

Definition DAYS_BEFORE_MONTH : list Z :=
  [0; 0; 31; 59; 90; 120; 151; 181; 212; 243; 273; 304; 334].

Definition days_before_month (year month : Z) : Z :=
  nth (Z.to_nat month) DAYS_BEFORE_MONTH 0
  + (if (2 <? month) && is_leap year then 1 else 0).

Definition ymd2ord (year month day : Z) : Z :=
  days_before_year year + days_before_month year month + day.

(** The inverse of [ymd2ord], as the standard library computes it. *)
Definition ord2ymd (ordinal : Z) : Z * Z * Z :=
  let n := ordinal - 1 in
  let n400 := n / 146097 in let n := n mod 146097 in
  let n100 := n / 36524 in let n := n mod 36524 in
  let n4 := n / 1461 in let n := n mod 1461 in
  let n1 := n / 365 in let n := n mod 365 in
  let year := n400 * 400 + 1 + n100 * 100 + n4 * 4 + n1 in
  if (n1 =? 4) || (n100 =? 4) then (year - 1, 12, 31)
  else
    let leapyear := (n1 =? 3) && (negb (n4 =? 24) || (n100 =? 3)) in
    let month := Z.shiftr (n + 50) 5 in
    let preceding :=
      nth (Z.to_nat month) DAYS_BEFORE_MONTH 0
      + (if (2 <? month) && leapyear then 1 else 0) in
    if n <? preceding
    then
      let month := month - 1 in
      let preceding :=
        preceding
        - ((if month =? 2 then 28
            else if (month =? 4) || (month =? 6) || (month =? 9) || (month =? 11)
                 then 30 else 31)
           + (if (month =? 2) && leapyear then 1 else 0)) in
      (year, month, n - preceding + 1)
    else (year, month, n - preceding + 1).

(** [d + timedelta(days=n)] (and [d - timedelta(days=n)] with [-n]): the
    sum of ordinals, or [OverflowError] outside 0001-01-01 .. 9999-12-31. *)
Definition add_days (d : datetime) (days : Z) : Result datetime :=
  let o := d + days in
  if (0 <? o) && (o <=? MAXORDINAL) then Ok o
  else Raise (OverflowError "date value out of range").

(** *** Text to date: [datetime.strptime(s, '%Y-%m-%d')] *)

Definition digit_value (c : ascii) : option Z :=
  let n := Z.of_nat (nat_of_ascii c) in
  if (48 <=? n) && (n <=? 57) then Some (n - 48) else None.

(** One or two characters read as a number: digits, or (when [blank] is
    set, as for the day directive) a space followed by a digit. *)
Definition number_1_2 (blank : bool) (tok : string) : option Z :=
  match tok with
  | String c EmptyString => digit_value c
  | String c1 (String c2 EmptyString) =>
      match digit_value c1, digit_value c2 with
      | Some a, Some b => Some (10 * a + b)
      | None, Some b =>
          if blank && Ascii.eqb c1 " "%char && (0 <? b) then Some b else None
      | _, _ => None
      end
  | _ => None
  end.

(** Splits a text at its first hyphen. *)
Fixpoint split_hyphen (s : string) : option (string * string) :=
  match s with
  | EmptyString => None
  | String c rest =>
      if Ascii.eqb c "-"%char then Some (EmptyString, rest)
      else match split_hyphen rest with
           | Some (a, b) => Some (String c a, b)
           | None => None
           end
  end.

Definition year_4 (c1 c2 c3 c4 : ascii) : option Z :=
  match digit_value c1, digit_value c2, digit_value c3, digit_value c4 with
  | Some a, Some b, Some c, Some d => Some (1000 * a + 100 * b + 10 * c + d)
  | _, _, _, _ => None
  end.

Definition bad_format (s : string) : exn :=
  ValueError ("time data '" ++ s ++ "' does not match format '%Y-%m-%d'")%string.

Definition strptime (s : string) : Result datetime :=
  match s with
  | String c1 (String c2 (String c3 (String c4 (String sep rest)))) =>
      match year_4 c1 c2 c3 c4, Ascii.eqb sep "-"%char, split_hyphen rest with
      | Some year, true, Some (mtok, dtok) =>
          match number_1_2 false mtok, number_1_2 true dtok with
          | Some month, Some day =>
              if (1 <=? month) && (month <=? 12) && (1 <=? day) && (day <=? 31)
              then
                if year <? 1 then Raise (ValueError "year 0 is out of range")
                else if day <=? days_in_month year month
                     then Ok (ymd2ord year month day)
                     else Raise (ValueError "day is out of range for month")
              else Raise (bad_format s)
          | _, _ => Raise (bad_format s)
          end
      | _, _, _ => Raise (bad_format s)
      end
  | _ => Raise (bad_format s)
  end.

(** *** Date to text: [d.strftime('%Y-%m-%d')]

    The year is written with four digits (a C library may drop the leading
    zeros of a year below 1000). *)

Definition digit_char (n : Z) : ascii := ascii_of_nat (48 + Z.to_nat (n mod 10)).

Definition pad2 (n : Z) : string :=
  String (digit_char (n / 10)) (String (digit_char n) EmptyString).

Definition pad4 (n : Z) : string :=
  String (digit_char (n / 1000)) (String (digit_char (n / 100)) (pad2 n)).

Definition strftime (d : datetime) : string :=
  let '(year, month, day) := ord2ymd d in
  (pad4 year ++ "-" ++ pad2 month ++ "-" ++ pad2 day)%string.
End Datetime.

(** ** Data frames *)

Module Pandas.
(** A frame is a table: column labels and rows of cells. *)
Record DataFrame : Type := {
  columns : list string;
  rows : list (list float)
}.

(** [df.empty]: some axis has length zero. *)
Definition empty (df : DataFrame) : bool :=
  match columns df, rows df with
  | [], _ => true
  | _, [] => true
  | _ :: _, _ :: _ => false
  end.

(** [name in df.columns]. *)
Definition has_column (name : string) (df : DataFrame) : bool :=
  existsb (String.eqb name) (columns df).

Fixpoint position (name : string) (labels : list string) : nat :=
  match labels with
  | [] => O
  | c :: labels' => if String.eqb name c then O else S (position name labels')
  end.

(** [df[name].values]: one cell per row. *)
Definition column_values (name : string) (df : DataFrame) : list float :=
  map (fun row => nth (position name (columns df)) row PrimFloat.nan) (rows df).

(** The test of lines 104 and 119: [not df.empty and name in df.columns]. *)
Definition has_data (name : string) (df : DataFrame) : bool :=
  negb (empty df) && has_column name df.
End Pandas.

Import Datetime Pandas.

(** ** The world around the function *)

Inductive level : Type := INFO | WARNING | ERROR.

(** What the function does to the outside, in order. *)
Inductive event : Type :=
| Fetch (kw_list : list string) (timeframe geo : string)
    (* pytrends.build_payload(...) followed by pytrends.interest_over_time() *)
| Sleep (seconds : Z)
| Log (lvl : level) (msg : string).

(** The provider: what its [n]-th request since entry, for a keyword and a
    timeframe, answers.  [build_payload] and [interest_over_time] sit in the
    same [try] and an exception of either reaches the same handler, so the
    pair is one request that returns a frame or raises. *)
Definition Provider : Type := nat -> string -> string -> Result DataFrame.

(** The dictionary the function returns.  A numeric entry that holds [None]
    is [None] here; [error] is [None] when the key is absent. *)
Record ComparisonResult : Type := {
  book_title : string;
  ban_date : string;
  avg_search_before : option float;
  avg_search_after : option float;
  max_search_before : option float;
  max_search_after : option float;
  min_search_before : option float;
  min_search_after : option float;
  percent_change : option float;
  absolute_change : option float;
  volatility : option float;
  data_collected : string;
  collection_successful : bool;
  error : option string
}.

(** How a call ends: with a returned value ([None] is Python's [None]) or
    with an exception that leaves the function. *)
Inductive outcome : Type :=
| Returned (value : option ComparisonResult)
| Escaped (e : exn).

(** The state threaded through one call: requests answered so far, the
    trace, and the two locals that survive from one attempt to the next. *)
Record State : Type := {
  calls : nat;
  trace : list event;
  before_values : option (list float);
  after_values : option (list float)
}.

Definition initial : State :=
  {| calls := O; trace := []; before_values := None; after_values := None |}.

(** ** A state and exception monad for the body of the [try] *)

Definition M (A : Type) : Type := State -> Result A * State.

Definition ret {A : Type} (a : A) : M A := fun s => (Ok a, s).

Definition bind {A B : Type} (m : M A) (f : A -> M B) : M B :=
  fun s =>
    match m s with
    | (Ok a, s') => f a s'
    | (Raise e, s') => (Raise e, s')
    end.

Definition lift {A : Type} (r : Result A) : M A := fun s => (r, s).

Declare Scope monad_scope.
Delimit Scope monad_scope with monad.
Notation "x <- m ;; k" := (bind m (fun x => k))
  (at level 61, m at next level, right associativity) : monad_scope.
Notation "' p <- m ;; k" := (bind m (fun x => let p := x in k))
  (at level 61, p pattern, m at next level, right associativity) : monad_scope.
Notation "m ;; k" := (bind m (fun _ => k))
  (at level 61, right associativity) : monad_scope.

(** The state once an event has been appended to the trace. *)
Definition record (ev : event) (s : State) : State :=
  {| calls := calls s; trace := trace s ++ [ev];
     before_values := before_values s;
     after_values := after_values s |}.

(** The state once the provider has been asked one more request. *)
Definition asked (kw timeframe : string) (s : State) : State :=
  {| calls := S (calls s);
     trace := trace s ++ [Fetch [kw] timeframe "US"];
     before_values := before_values s;
     after_values := after_values s |}.

Definition emit (ev : event) : M unit := fun s => (Ok tt, record ev s).

Definition sleep (seconds : Z) : M unit := emit (Sleep seconds).
Definition logging (lvl : level) (msg : string) : M unit := emit (Log lvl msg).

Definition set_before_values (v : list float) : M unit :=
  fun s =>
    (Ok tt, {| calls := calls s; trace := trace s;
               before_values := Some v; after_values := after_values s |}).

Definition set_after_values (v : list float) : M unit :=
  fun s =>
    (Ok tt, {| calls := calls s; trace := trace s;
               before_values := before_values s; after_values := Some v |}).

(** Reading a local that no assignment has reached raises. *)
Definition get_before_values : M (list float) :=
  fun s =>
    match before_values s with
    | Some v => (Ok v, s)
    | None => (Raise (UnboundLocalError "before_values"), s)
    end.

Definition get_after_values : M (list float) :=
  fun s =>
    match after_values s with
    | Some v => (Ok v, s)
    | None => (Raise (UnboundLocalError "after_values"), s)
    end.

(** ** The windows (lines 79-86) *)

Record Windows : Type := {
  before_start : datetime;
  before_end : datetime;
  after_start : datetime;
  after_end : datetime
}.

Definition windows (ban_date : datetime) : Result Windows :=
  match add_days ban_date (-90) with
  | Raise e => Raise e
  | Ok b_start =>
  match add_days ban_date (-1) with
  | Raise e => Raise e
  | Ok b_end =>
  match add_days ban_date 1 with
  | Raise e => Raise e
  | Ok a_start =>
  match add_days ban_date 90 with
  | Raise e => Raise e
  | Ok a_end =>
      Ok {| before_start := b_start; before_end := b_end;
            after_start := a_start; after_end := a_end |}
  end end end end.

Definition before_timeframe (w : Windows) : string :=
  (strftime (before_start w) ++ " " ++ strftime (before_end w))%string.

Definition after_timeframe (w : Windows) : string :=
  (strftime (after_start w) ++ " " ++ strftime (after_end w))%string.

(** ** The metrics (lines 128-137) *)

Section Metrics.
Local Open Scope float_scope.

Definition percent_change_of (before_avg after_avg : float) : float :=
  if 0 <? before_avg
  then ((after_avg - before_avg) / before_avg) * 100
  else if after_avg =? 0 then 0 else infinity.

Definition absolute_change_of (before_avg after_avg : float) : float :=
  if 0 <? before_avg then after_avg - before_avg else after_avg.

Definition volatility_of (all_values : list float) : float :=
  if (0 <? List.length all_values)%nat then Numpy.std all_values else 0.
End Metrics.

(** The locals of an attempt that reaches the [return] of the [try]. *)
Record Locals : Type := {
  before_avg : float; before_max : float; before_min : float;
  after_avg : float; after_max : float; after_min : float;
  l_percent_change : float;
  l_absolute_change : float;
  all_values : list float;
  l_volatility : float
}.

Definition string_of_Z (z : Z) : string := NilZero.string_of_int (Z.to_int z).

(** ** The function *)

Section Engine.
Variable pytrends : Provider.
(** The text of [datetime.now()] when the result dictionary is built. *)
Variable now : string.

Definition interest_over_time (kw timeframe : string) : M DataFrame :=
  fun s => (pytrends (calls s) kw timeframe, asked kw timeframe s).

Section Call.
Variables title ban_date_str : string.
Variable retries : Z.
Variable w : Windows.

Local Open Scope monad_scope.

(** Lines 100-137: both requests and the statistics. *)
Definition collect : M Locals :=
  before_df <- interest_over_time title (before_timeframe w) ;;
  '(b_avg, b_max, b_min) <-
    (if has_data title before_df
     then
       let values := column_values title before_df in
       set_before_values values ;;
       b_max <- lift (Numpy.max values) ;;
       b_min <- lift (Numpy.min values) ;;
       ret (Numpy.mean values, b_max, b_min)
     else ret (0%float, 0%float, 0%float)) ;;
  sleep 12 ;;
  after_df <- interest_over_time title (after_timeframe w) ;;
  '(a_avg, a_max, a_min) <-
    (if has_data title after_df
     then
       let values := column_values title after_df in
       set_after_values values ;;
       a_max <- lift (Numpy.max values) ;;
       a_min <- lift (Numpy.min values) ;;
       ret (Numpy.mean values, a_max, a_min)
     else ret (0%float, 0%float, 0%float)) ;;
  b_values <- get_before_values ;;
  a_values <- get_after_values ;;
  ret {| before_avg := b_avg; before_max := b_max; before_min := b_min;
         after_avg := a_avg; after_max := a_max; after_min := a_min;
         l_percent_change := percent_change_of b_avg a_avg;
         l_absolute_change := absolute_change_of b_avg a_avg;
         all_values := b_values ++ a_values;
         l_volatility := volatility_of (b_values ++ a_values) |}.

(** Lines 141-155. *)
Definition success (l : Locals) : ComparisonResult :=
  {| book_title := title;
     ban_date := ban_date_str;
     avg_search_before := Some (Numpy.round2 (before_avg l));
     avg_search_after := Some (Numpy.round2 (after_avg l));
     max_search_before := Some (before_max l);
     max_search_after := Some (after_max l);
     min_search_before := Some (before_min l);
     min_search_after := Some (after_min l);
     percent_change := Some (Numpy.round2 (l_percent_change l));
     absolute_change := Some (Numpy.round2 (l_absolute_change l));
     volatility := Some (Numpy.round2 (l_volatility l));
     data_collected := now;
     collection_successful := true;
     error := None |}.

(** Lines 163-178. *)
Definition failure (e : exn) : ComparisonResult :=
  {| book_title := title;
     ban_date := ban_date_str;
     avg_search_before := None;
     avg_search_after := None;
     max_search_before := None;
     max_search_after := None;
     min_search_before := None;
     min_search_after := None;
     percent_change := None;
     absolute_change := None;
     volatility := None;
     data_collected := now;
     collection_successful := false;
     error := Some (str e) |}.

(** The body of the [try] (lines 90-155). *)
Definition try_block : M ComparisonResult :=
  l <- collect ;;
  logging INFO ("Successfully collected data for: " ++ title) ;;
  ret (success l).

(** The handler's retry branch (lines 159-160), as a state change. *)
Definition backoff (attempt : Z) (e : exn) (s : State) : State :=
  snd ((logging WARNING
          ("Attempt " ++ string_of_Z (attempt + 1) ++ " failed for "
             ++ title ++ ": " ++ str e ++ ". Retrying...") ;;
        sleep 20) s).

(** The handler's last branch (line 162), as a state change. *)
Definition exhausted (e : exn) (s : State) : State :=
  snd (logging ERROR ("All attempts failed for " ++ title ++ ": " ++ str e) s).

(** [for attempt in range(retries)], with [todo] passes still to make.
    Leaving the loop without a [return] ends the function: [None]. *)
Fixpoint retry_loop (todo : nat) (attempt : Z) (s : State) : outcome * State :=
  match todo with
  | O => (Returned None, s)
  | S todo' =>
      match try_block s with
      | (Ok result, s') => (Returned (Some result), s')
      | (Raise e, s') =>
          if (attempt <? retries - 1)%Z
          then retry_loop todo' (attempt + 1)%Z (backoff attempt e s')
          else (Returned (Some (failure e)), exhausted e s')
      end
  end.
End Call.

(** Lines 58-178. *)
Definition get_trends_data (title ban_date_str : string) (retries : Z)
  : outcome * list event :=
  match strptime ban_date_str with
  | Raise _ =>
      (Returned None,
       [Log ERROR ("Invalid date format for " ++ title ++ ": " ++ ban_date_str)])
  | Ok ban_date =>
      match windows ban_date with
      | Raise e => (Escaped e, [])
      | Ok w =>
          let (result, s) :=
            retry_loop title ban_date_str retries w (Z.to_nat retries) 0%Z initial in
          (result, trace s)
      end
  end.
End Engine.

(** ** Observations on a trace *)

Definition is_fetch (ev : event) : bool :=
  match ev with Fetch _ _ _ => true | _ => false end.

Definition is_sleep (seconds : Z) (ev : event) : bool :=
  match ev with Sleep n => (n =? seconds)%Z | _ => false end.

(** Number of requests made to the provider. *)
Definition provider_calls (t : list event) : nat := List.length (filter is_fetch t).

(** Number of waits of the longer, inter-attempt delay. *)
Definition backoffs (t : list event) : nat := List.length (filter (is_sleep 20) t).

(** ** Stub providers for scenarios *)

(** A frame as pytrends builds it: the keyword's column and [isPartial]. *)
Definition frame (kw : string) (scores : list float) : DataFrame :=
  {| columns := [kw; "isPartial"%string];
     rows := map (fun v => [v; 0%float]) scores |}.

(** The frame pytrends returns when Google has nothing. *)
Definition no_data : DataFrame := {| columns := []; rows := [] |}.

(** A provider that plays a fixed script, then keeps raising. *)
Definition scripted (script : list (Result DataFrame)) : Provider :=
  fun n _ _ => nth n script (Raise (ProviderError "script exhausted")).

(** The provider is throttled for good. *)
Definition throttled : Provider :=
  fun _ _ _ => Raise (ProviderError "The request failed: Google returned a response with code 429").

(** The scenario of the specification: scores 10, 20, 30 then 40, 50, 60. *)
Definition example_book : Provider :=
  scripted [Ok (frame "Example Book" [10; 20; 30]%float);
            Ok (frame "Example Book" [40; 50; 60]%float)].

(** Two transient errors, then the scenario above. *)
Definition flaky : Provider :=
  scripted [Raise (ProviderError "timeout");
            Ok (frame "Example Book" [10; 20; 30]%float);
            Raise (ProviderError "code 429");
            Ok (frame "Example Book" [10; 20; 30]%float);
            Ok (frame "Example Book" [40; 50; 60]%float)].

(** Google has nothing for the window before the ban, at every attempt. *)
Definition nothing_before : Provider :=
  fun n _ _ =>
    if Nat.even n then Ok no_data
    else Ok (frame "Example Book" [40; 50; 60]%float).

(** The first attempt gets scores for the window before the ban and is then
    throttled; at the second attempt Google has nothing for that window. *)
Definition throttled_once : Provider :=
  scripted [Ok (frame "Example Book" [10; 20]%float);
            Raise (ProviderError "code 429");
            Ok no_data;
            Ok (frame "Example Book" [5]%float)].

(** Scores that are not whole numbers. *)
Definition fractional : Provider :=
  scripted [Ok (frame "Example Book" [10.0625]%float);
            Ok (frame "Example Book" [3]%float)].


(** Decimal values that are not binary64 numbers, by their nearest one. *)
Definition f_17_08 : float := 0x1.1147ae147ae14p+4%float.
Definition f_10_06 : float := 0x1.41eb851eb851fp+3%float.
Definition f_6_24 : float := 0x1.8f5c28f5c28f6p+2%float.

(** The window of the scenarios: ninety days on each side of 2022-09-01. *)
Definition example_windows : Windows :=
  {| before_start := 738309%Z; before_end := 738398%Z;
     after_start := 738400%Z; after_end := 738489%Z |}.

(** A clock reading for the scenarios. *)
Definition a_moment : string := "2026-01-01 00:00:00".

(** The record of the specification's scenario. *)
Definition example_record : ComparisonResult :=
  {| book_title := "Example Book";
     ban_date := "2022-09-01";
     avg_search_before := Some 20%float;
     avg_search_after := Some 50%float;
     max_search_before := Some 30%float;
     max_search_after := Some 60%float;
     min_search_before := Some 10%float;
     min_search_after := Some 40%float;
     percent_change := Some 150%float;
     absolute_change := Some 30%float;
     volatility := Some f_17_08;
     data_collected := a_moment;
     collection_successful := true;
     error := None |}.

(** The record returned when the provider stays throttled. *)
Definition throttled_record : ComparisonResult :=
  {| book_title := "Example Book";
     ban_date := "2022-09-01";
     avg_search_before := None;
     avg_search_after := None;
     max_search_before := None;
     max_search_after := None;
     min_search_before := None;
     min_search_after := None;
     percent_change := None;
     absolute_change := None;
     volatility := None;
     data_collected := a_moment;
     collection_successful := false;
     error := Some "The request failed: Google returned a response with code 429"%string |}.

(** ** Vocabulary for the statements *)

(** What a window contributes to an attempt: its three statistics (lines
    104-110), and the binding of its values variable once the window has
    been handled (line 105 runs only in the first branch). *)
Definition window_stats (title : string) (df : DataFrame) : float * float * float :=
  if has_data title df
  then match column_values title df with
       | [] => (0%float, 0%float, 0%float)
       | x :: l =>
           (Numpy.mean (x :: l), fold_left Numpy.maximum l x,
            fold_left Numpy.minimum l x)
       end
  else (0%float, 0%float, 0%float).

Definition rebind (title : string) (df : DataFrame) (old : option (list float))
  : option (list float) :=
  if has_data title df then Some (column_values title df) else old.

(** The trace of an attempt whose two requests are both answered. *)
Definition two_requests (title : string) (w : Windows) : list event :=
  [Fetch [title] (before_timeframe w) "US"; Sleep 12;
   Fetch [title] (after_timeframe w) "US"].

(** The requests of a call all concern its subject and its two windows. *)
Definition same_subject (title : string) (w : Windows) (ev : event) : Prop :=
  match ev with
  | Fetch kw_list timeframe geo =>
      kw_list = [title] /\ geo = "US"%string
      /\ (timeframe = before_timeframe w \/ timeframe = after_timeframe w)
  | _ => True
  end.

(** A record is one of the two the function builds. *)
Definition numeric_fields (r : ComparisonResult) : list (option float) :=
  [avg_search_before r; avg_search_after r; max_search_before r;
   max_search_after r; min_search_before r; min_search_after r;
   percent_change r; absolute_change r; volatility r].

Definition is_some {A : Type} (o : option A) : bool :=
  match o with Some _ => true | None => false end.

Definition all_present (r : ComparisonResult) : bool :=
  forallb is_some (numeric_fields r).

Definition all_absent (r : ComparisonResult) : bool :=
  forallb (fun o => negb (is_some o)) (numeric_fields r).

(** [provider_fails p title w c es c']: from its request number [c] on,
    the provider makes [length es] attempts in a row fail, raising the
    exceptions [es] in turn, each in the first or in the second request of
    its attempt; [c'] is the number of the next request. *)
Inductive provider_fails (p : Provider) (title : string) (w : Windows)
  : nat -> list exn -> nat -> Prop :=
| fails_none : forall c, provider_fails p title w c [] c
| fails_before : forall c e es c',
    p c title (before_timeframe w) = Raise e ->
    provider_fails p title w (S c) es c' ->
    provider_fails p title w c (e :: es) c'
| fails_after : forall c df e es c',
    p c title (before_timeframe w) = Ok df ->
    p (S c) title (after_timeframe w) = Raise e ->
    provider_fails p title w (S (S c)) es c' ->
    provider_fails p title w c (e :: es) c'.

(** The bounds between which both windows of a date can be represented:
    0001-04-01 and 9999-10-02. *)
Definition windows_fit (d : datetime) : Prop :=
  (90 < d /\ d <= MAXORDINAL - 90)%Z.

(** The locals of an attempt both of whose requests are answered with
    data: everything is computed from the two frames of that attempt. *)
Definition fresh_locals (title : string) (df1 df2 : DataFrame) : Locals :=
  let '(b_avg, b_max, b_min) := window_stats title df1 in
  let '(a_avg, a_max, a_min) := window_stats title df2 in
  {| before_avg := b_avg; before_max := b_max; before_min := b_min;
     after_avg := a_avg; after_max := a_max; after_min := a_min;
     l_percent_change := percent_change_of b_avg a_avg;
     l_absolute_change := absolute_change_of b_avg a_avg;
     all_values := column_values title df1 ++ column_values title df2;
     l_volatility :=
       volatility_of (column_values title df1 ++ column_values title df2) |}.

(** ** More observations on a trace *)

Definition is_warning (ev : event) : bool :=
  match ev with Log WARNING _ => true | _ => false end.

(** Number of waits of the shorter delay, between the two requests. *)
Definition naps (t : list event) : nat := List.length (filter (is_sleep 12) t).

(** Number of warning lines written to the log. *)
Definition warnings (t : list event) : nat := List.length (filter is_warning t).

(** Seconds spent in [time.sleep]. *)
Fixpoint sleeping (t : list event) : Z :=
  match t with
  | [] => 0%Z
  | Sleep seconds :: t' => (seconds + sleeping t')%Z
  | _ :: t' => sleeping t'
  end.

(** The last event of a trace ([Sleep 0] stands for "none"). *)
Definition last_event (t : list event) : event := last t (Sleep 0).

(** ** The batch functions (lines 181-251)

    [test_collection] and [collect_all_books] call [get_trends_data] once
    per book, one call after the other, on the one provider client of the
    module.  The table that [pd.read_csv] yields is given as the list of its
    rows, in the order of [iterrows] (its index is the row number); the clock
    is read once per returned record, [clock i] for row [i].  Progress bars
    are left out. *)

(** A row of the input table: [row['Book Title']], [row['Ban Date']] and
    [row.get('State')] ([None] when the table has no such column). *)
Record Book : Type := {
  Book_Title : string;
  Ban_Date : string;
  State_entry : option string
}.

(** A result dictionary after line 230 has added its ['state'] entry. *)
Record Collected : Type := {
  result : ComparisonResult;
  state : string
}.

(** [row.get('State', 'Unknown')]. *)
Definition state_of (row : Book) : string :=
  match State_entry row with
  | Some st => st
  | None => "Unknown"
  end.

Definition nl : string := String (ascii_of_nat 10) EmptyString.

(** What a batch function prints or writes, in order. *)
Inductive output : Type :=
| Engine (ev : event)            (* an effect of a call to get_trends_data *)
| Print (text : string)
| PrintResult (value : option ComparisonResult)
    (* print(f"Result: {result}\n") *)
| PrintAverage (percent_changes : list (option float))
    (* the line with the mean of the percent_change column *)
| Mkdir (path : string)
| TestCsv (path : string) (rows : list (option ComparisonResult))
| ToCsv (path : string) (rows : list Collected).

(** The provider as it is after having answered [k] requests. *)
Definition later (pytrends : Provider) (k : nat) : Provider :=
  fun n => pytrends (k + n)%nat.

(** The text starts with ".csv". *)
Definition at_csv (c1 c2 c3 c4 : ascii) : bool :=
  Ascii.eqb c1 "." && Ascii.eqb c2 "c" && Ascii.eqb c3 "s" && Ascii.eqb c4 "v".

(** [output_csv.replace('.csv', '_temp.csv')]: every occurrence, from the
    left. *)
Fixpoint temp_path (output_csv : string) : string :=
  match output_csv with
  | EmptyString => EmptyString
  | String c1 rest1 =>
      match rest1 with
      | String c2 (String c3 (String c4 rest)) =>
          if at_csv c1 c2 c3 c4
          then ("_temp.csv" ++ temp_path rest)%string
          else String c1 (temp_path rest1)
      | _ => String c1 (temp_path rest1)
      end
  end.

(** Number of occurrences of ".csv" in a path, counted from the left. *)
Fixpoint count_csv (path : string) : nat :=
  match path with
  | EmptyString => O
  | String c1 rest1 =>
      match rest1 with
      | String c2 (String c3 (String c4 rest)) =>
          if at_csv c1 c2 c3 c4 then S (count_csv rest) else count_csv rest1
      | _ => count_csv rest1
      end
  end.

(** The state of a batch: requests answered by the provider so far, what
    was printed and written, and [all_results]. *)
Record Batch : Type := {
  requests : nat;
  shown : list output;
  all_results : list Collected
}.

(** Exceptions of the batch: one that left a call, or the missing column
    of line 246. *)
Inductive batch_exn : Type :=
| FromCall (e : exn)
| KeyError (key : string).

Inductive batch_outcome : Type :=
| Done (results : list Collected)   (* return results_df *)
| Aborted (e : batch_exn).

Section Batches.
Variable pytrends : Provider.
Variable clock : nat -> string.

(** The loop of lines 223-237 over the rows still to process; [index] is
    the number of the first of them.  An exception that leaves a call ends
    the loop. *)
Fixpoint process_books (output_csv : string) (total : nat) (books : list Book)
  (index : nat) (b : Batch) : option exn * Batch :=
  match books with
  | [] => (None, b)
  | row :: rest =>
      let (value, tr) :=
        get_trends_data (later pytrends (requests b)) (clock index)
          (Book_Title row) (Ban_Date row) 3 in
      let b1 := {| requests := requests b + provider_calls tr;
                   shown := shown b ++ map Engine tr;
                   all_results := all_results b |} in
      match value with
      | Escaped e => (Some e, b1)
      | Returned value =>
          let b2 :=
            match value with
            | Some r =>
                {| requests := requests b1;
                   shown := shown b1;
                   all_results :=
                     all_results b1 ++ [{| result := r; state := state_of row |}] |}
            | None => b1
            end in
          let b3 :=
            if ((index + 1) mod 10 =? 0)%nat
            then {| requests := requests b2;
                    shown :=
                      shown b2
                      ++ [ToCsv (temp_path output_csv) (all_results b2);
                          Print (nl ++ "Progress saved: "
                                   ++ string_of_Z (Z.of_nat (index + 1)) ++ "/"
                                   ++ string_of_Z (Z.of_nat total)
                                   ++ " books completed")];
                    all_results := all_results b2 |}
            else b2 in
          process_books output_csv total rest (S index) b3
      end
  end.

Definition successes (rows : list Collected) : nat :=
  List.length (filter (fun c => collection_successful (result c)) rows).

Definition failures (rows : list Collected) : nat :=
  List.length (filter (fun c => negb (collection_successful (result c))) rows).

(** Lines 207-251, on the rows read from [input_csv]. *)
Definition collect_all_books (books : list Book) (output_csv : string)
  : batch_outcome * list output :=
  let total := List.length books in
  let start :=
    {| requests := O;
       shown := [Print ("Found " ++ string_of_Z (Z.of_nat total)
                          ++ " books to process")];
       all_results := [] |} in
  match process_books output_csv total books O start with
  | (Some e, b) => (Aborted (FromCall e), shown b)
  | (None, b) =>
      let saved :=
        shown b
        ++ [ToCsv output_csv (all_results b);
            Print (nl ++ "=== COLLECTION COMPLETE ===");
            Print ("Total books processed: "
                     ++ string_of_Z (Z.of_nat (List.length (all_results b))))] in
      match all_results b with
      | [] => (Aborted (KeyError "collection_successful"), saved)
      | _ :: _ =>
          (Done (all_results b),
           saved
           ++ [Print ("Successful collections: "
                        ++ string_of_Z (Z.of_nat (successes (all_results b))));
               Print ("Failed collections: "
                        ++ string_of_Z (Z.of_nat (failures (all_results b))));
               PrintAverage
                 (map (fun c => percent_change (result c)) (all_results b));
               Print ("Results saved to: " ++ output_csv)])
      end
  end.

(** Lines 183-187. *)
Definition test_books : list (string * string) :=
  [("Gender Queer", "2022-09-01");
   ("All Boys Aren't Blue", "2022-10-15");
   ("The Bluest Eye", "2022-08-20")]%string.

(** The loop of lines 190-194; a [None] is appended like a record. *)
Fixpoint test_loop (books : list (string * string)) (index : nat)
  (asked_so_far : nat) (out : list output)
  (results : list (option ComparisonResult))
  : option exn * list output * list (option ComparisonResult) :=
  match books with
  | [] => (None, out, results)
  | (title, date) :: rest =>
      let (value, tr) :=
        get_trends_data (later pytrends asked_so_far) (clock index) title date 3 in
      let out1 := out ++ [Print ("Testing: " ++ title)] ++ map Engine tr in
      match value with
      | Escaped e => (Some e, out1, results)
      | Returned value =>
          test_loop rest (S index) (asked_so_far + provider_calls tr)
            (out1 ++ [PrintResult value]) (results ++ [value])
      end
  end.

(** Lines 181-203. *)
Definition test_collection : option exn * list output :=
  match test_loop test_books O O [] [] with
  | (Some e, out, _) => (Some e, out)
  | (None, out, results) =>
      (None,
       out ++ [Mkdir "../data/raw";
               TestCsv "../data/raw/test_results.csv" results;
               Print "Test results saved to ../data/raw/test_results.csv"])
  end.
End Batches.

(** *** Observations on the outputs of a batch *)

(** The effects of the calls to [get_trends_data], in order. *)
Fixpoint engine_events (out : list output) : list event :=
  match out with
  | [] => []
  | Engine ev :: out' => ev :: engine_events out'
  | _ :: out' => engine_events out'
  end.

(** The tables written with [to_csv] by [collect_all_books], in order. *)
Fixpoint csv_writes (out : list output) : list (string * list Collected) :=
  match out with
  | [] => []
  | ToCsv path rows :: out' => (path, rows) :: csv_writes out'
  | _ :: out' => csv_writes out'
  end.

(** A date text that [strptime] accepts. *)
Definition parses (text : string) : bool :=
  match strptime text with
  | Ok _ => true
  | Raise _ => false
  end.

(** A date text that is either rejected or has windows within the
    calendar: a call on it lets no exception out. *)
Definition harmless (text : string) : Prop :=
  match strptime text with
  | Ok d => windows_fit d
  | Raise _ => True
  end.

(** The three input-derived entries of a collected row. *)
Definition entry_of (c : Collected) : string * string * string :=
  (book_title (result c), ban_date (result c), state c).

Definition entry_for (row : Book) : string * string * string :=
  (Book_Title row, Ban_Date row, state_of row).

(** Number of rows among the [n] rows from number [index] on after which
    line 234 saves a snapshot. *)
Fixpoint due (index n : nat) : nat :=
  match n with
  | O => O
  | S n' =>
      ((if ((index + 1) mod 10 =? 0)%nat then 1 else 0) + due (S index) n')%nat
  end.

(** A table for the scenarios: a malformed date, then a valid one in a
    table without a state column. *)
Definition sample_books : list Book :=
  [{| Book_Title := "Gender Queer"; Ban_Date := "2022-13-40";
      State_entry := Some "Texas"%string |};
   {| Book_Title := "Example Book"; Ban_Date := "2022-09-01";
      State_entry := None |}].

(** A row with the last date of the calendar. *)
Definition last_day_book : Book :=
  {| Book_Title := "The Bluest Eye"; Ban_Date := "9999-12-31";
     State_entry := Some "Utah"%string |}.

Definition default_output : string := "data/raw/google_trends_complete.csv".

(** Eleven rows: nine malformed dates, then [sample_books]. *)
Definition long_table : list Book :=
  repeat {| Book_Title := "Gender Queer"; Ban_Date := "2022-13-40";
            State_entry := Some "Texas"%string |} 9
  ++ sample_books.

(** [v] is the column of scores of an answer with data that the provider
    gives, for this subject and this timeframe, to one of the first [upto]
    requests. *)
Definition scores_of (pytrends : Provider) (title timeframe : string)
  (upto : nat) (v : list float) : Prop :=
  exists (n : nat) (df : DataFrame),
    (n < upto)%nat
    /\ pytrends n title timeframe = Ok df
    /\ has_data title df = true
    /\ v = column_values title df.

(** The two values variables hold, when bound, the scores of an answer
    with data to one of the requests made so far, each for its own window. *)
Definition bound_to_answers (pytrends : Provider) (title : string)
  (w : Windows) (s : State) : Prop :=
  (forall v, before_values s = Some v ->
             scores_of pytrends title (before_timeframe w) (calls s) v)
  /\ (forall v, after_values s = Some v ->
                scores_of pytrends title (after_timeframe w) (calls s) v).

(** ** Vocabulary for the calendar

    A year written by its position in the 400-year cycle: [q400] whole
    cycles, then [q100] centuries, [q4] four-year groups and [q1] years
    before it. *)
Definition year_of_parts (q400 q100 q4 q1 : Z) : Z :=
  (400 * q400 + 100 * q100 + 4 * q4 + q1 + 1)%Z.

Definition month_length (leap : bool) (month : Z) : Z :=
  (if month =? 2 then (if leap then 29 else 28)
   else if (month =? 4) || (month =? 6) || (month =? 9) || (month =? 11)
        then 30 else 31)%Z.

(** The month and the day of day [n] (from 0) of a year, as the last part
    of [ord2ymd] finds them: an estimate of the month, corrected when it is
    one too high. *)
Definition month_day (leapyear : bool) (n : Z) : Z * Z :=
  (let month := Z.shiftr (n + 50) 5 in
   let preceding :=
     nth (Z.to_nat month) Datetime.DAYS_BEFORE_MONTH 0
     + (if (2 <? month) && leapyear then 1 else 0) in
   if n <? preceding
   then
     let month := month - 1 in
     let preceding :=
       preceding
       - ((if month =? 2 then 28
           else if (month =? 4) || (month =? 6) || (month =? 9) || (month =? 11)
                then 30 else 31)
          + (if (month =? 2) && leapyear then 1 else 0)) in
     (month, n - preceding + 1)
   else (month, n - preceding + 1))%Z.

(** 1000-01-01, the first day whose year has four digits of its own. *)
Definition year_1000 : datetime := Datetime.ymd2ord 1000 1 1.

(** * Properties of the embedding *)

(** ** Comparisons with zero *)

Section ZeroTests.
Local Open Scope float_scope.

Lemma eq0_not_pos (x : float) : (x =? 0) = true -> (0 <? x) = false.
Proof.
  intros H. rewrite FloatAxioms.eqb_spec in H. rewrite FloatAxioms.ltb_spec.
  change (Prim2SF 0) with (S754_zero false) in *.
  destruct (Prim2SF x) as [sg | sg | | sg m e]; try destruct sg;
    cbn in *; congruence.
Qed.

Lemma pos_not_eq0 (x : float) : (0 <? x) = true -> (x =? 0) = false.
Proof.
  intros H. rewrite FloatAxioms.ltb_spec in H. rewrite FloatAxioms.eqb_spec.
  change (Prim2SF 0) with (S754_zero false) in *.
  destruct (Prim2SF x) as [sg | sg | | sg m e]; try destruct sg;
    cbn in *; congruence.
Qed.
End ZeroTests.

(** ** Counting on traces *)

Lemma provider_calls_app (t1 t2 : list event) :
  provider_calls (t1 ++ t2) = (provider_calls t1 + provider_calls t2)%nat.
Proof. unfold provider_calls. now rewrite filter_app, length_app. Qed.

Lemma backoffs_app (t1 t2 : list event) :
  backoffs (t1 ++ t2) = (backoffs t1 + backoffs t2)%nat.
Proof. unfold backoffs. now rewrite filter_app, length_app. Qed.

(** ** One attempt *)

Ltac same_tac :=
  unfold two_requests;
  repeat (apply Forall_cons || apply Forall_nil); cbn; repeat split; auto.

Ltac run_state :=
  unfold asked, record, emit, sleep, logging, set_before_values,
    set_after_values, get_before_values, get_after_values, lift, ret,
    two_requests;
  cbn; rewrite <- ?app_assoc; cbn.

Section Attempt.
Variable pytrends : Provider.
Variable now : string.
Variables title ban_date_str : string.
Variable w : Windows.

(** A frame that passes the test of line 104 has at least one value. *)
Lemma has_data_values (df : DataFrame) :
  has_data title df = true -> column_values title df <> [].
Proof.
  unfold has_data, empty, column_values.
  destruct (columns df), (rows df); simpl; discriminate.
Qed.

Lemma collect_before_raises (s : State) (e : exn) :
  pytrends (calls s) title (before_timeframe w) = Raise e ->
  collect pytrends title w s = (Raise e, asked title (before_timeframe w) s).
Proof.
  intros H. unfold collect, bind, interest_over_time. now rewrite H.
Qed.

Lemma collect_after_raises (s : State) (df : DataFrame) (e : exn) :
  pytrends (calls s) title (before_timeframe w) = Ok df ->
  pytrends (S (calls s)) title (after_timeframe w) = Raise e ->
  collect pytrends title w s =
    (Raise e,
     {| calls := S (S (calls s));
        trace := trace s ++ two_requests title w;
        before_values := rebind title df (before_values s);
        after_values := after_values s |}).
Proof.
  intros Hb Ha. unfold collect, bind, interest_over_time, rebind. rewrite Hb.
  destruct (has_data title df) eqn:Hd.
  - pose proof (has_data_values df Hd) as Hne.
    destruct (column_values title df) as [|x l]; [congruence|].
    run_state. rewrite Ha. now run_state.
  - run_state. rewrite Ha. now run_state.
Qed.

Lemma collect_answered (s : State) (df1 df2 : DataFrame) :
  pytrends (calls s) title (before_timeframe w) = Ok df1 ->
  pytrends (S (calls s)) title (after_timeframe w) = Ok df2 ->
  let s' := {| calls := S (S (calls s));
               trace := trace s ++ two_requests title w;
               before_values := rebind title df1 (before_values s);
               after_values := rebind title df2 (after_values s) |} in
  collect pytrends title w s =
    (match before_values s', after_values s' with
     | None, _ => Raise (UnboundLocalError "before_values")
     | Some _, None => Raise (UnboundLocalError "after_values")
     | Some b, Some a =>
         let '(b_avg, b_max, b_min) := window_stats title df1 in
         let '(a_avg, a_max, a_min) := window_stats title df2 in
         Ok {| before_avg := b_avg; before_max := b_max; before_min := b_min;
               after_avg := a_avg; after_max := a_max; after_min := a_min;
               l_percent_change := percent_change_of b_avg a_avg;
               l_absolute_change := absolute_change_of b_avg a_avg;
               all_values := b ++ a;
               l_volatility := volatility_of (b ++ a) |}
     end, s').
Proof.
  intros Hb Ha. unfold collect, bind, interest_over_time, rebind, window_stats.
  rewrite Hb.
  destruct (has_data title df1) eqn:Hd1.
  - pose proof (has_data_values df1 Hd1) as Hne1.
    destruct (column_values title df1) as [|x1 l1]; [congruence|].
    run_state. rewrite Ha.
    destruct (has_data title df2) eqn:Hd2.
    + pose proof (has_data_values df2 Hd2) as Hne2.
      destruct (column_values title df2) as [|x2 l2]; [congruence|].
      now run_state.
    + run_state. destruct (after_values s); reflexivity.
  - run_state. rewrite Ha.
    destruct (has_data title df2) eqn:Hd2.
    + pose proof (has_data_values df2 Hd2) as Hne2.
      destruct (column_values title df2) as [|x2 l2]; [congruence|].
      run_state. destruct (before_values s); reflexivity.
    + run_state. destruct (before_values s), (after_values s); reflexivity.
Qed.

(** The derived metrics of a completed pass are computed from its two
    averages and from the pooled values it read. *)
Lemma collect_metrics (s s' : State) (l : Locals) :
  collect pytrends title w s = (Ok l, s') ->
  l_percent_change l = percent_change_of (before_avg l) (after_avg l)
  /\ l_absolute_change l = absolute_change_of (before_avg l) (after_avg l)
  /\ l_volatility l = volatility_of (all_values l).
Proof.
  destruct (pytrends (calls s) title (before_timeframe w)) as [df1 | e1] eqn:Hb.
  - destruct (pytrends (S (calls s)) title (after_timeframe w)) as [df2 | e2] eqn:Ha.
    + rewrite (collect_answered _ _ _ Hb Ha). cbn.
      destruct (rebind title df1 (before_values s)) as [b |]; [| discriminate].
      destruct (rebind title df2 (after_values s)) as [a |]; [| discriminate].
      destruct (window_stats title df1) as [[b_avg b_max] b_min].
      destruct (window_stats title df2) as [[a_avg a_max] a_min].
      intros H. inversion H; subst. cbn. repeat split.
    + rewrite (collect_after_raises _ _ _ Hb Ha). discriminate.
  - rewrite (collect_before_raises _ _ Hb). discriminate.
Qed.
End Attempt.

(** ** The body of the [try] and the loop *)

Section Loop.
Variable pytrends : Provider.
Variable now : string.
Variables title ban_date_str : string.
Variable retries : Z.
Variable w : Windows.

Local Abbreviation collect' := (collect pytrends title w).
Local Abbreviation try_block' := (try_block pytrends now title ban_date_str w).
Local Abbreviation retry_loop' := (retry_loop pytrends now title ban_date_str retries w).
Local Abbreviation success' := (success now title ban_date_str).
Local Abbreviation failure' := (failure now title ban_date_str).

Lemma try_block_collect (s : State) :
  try_block' s =
    match collect' s with
    | (Ok l, s') =>
        (Ok (success' l),
         record (Log INFO ("Successfully collected data for: " ++ title)) s')
    | (Raise e, s') => (Raise e, s')
    end.
Proof.
  unfold try_block, bind. destruct (collect' s) as [[l | e] s']; reflexivity.
Qed.

(** What one pass through [collect] leaves behind, whatever the provider
    does: at most two requests, for this subject and these windows, and no
    wait of the longer delay. *)
Lemma collect_trace (s : State) :
  exists tr,
    trace (snd (collect' s)) = trace s ++ tr
    /\ calls (snd (collect' s)) = (calls s + provider_calls tr)%nat
    /\ backoffs tr = O
    /\ Forall (same_subject title w) tr.
Proof.
  destruct (pytrends (calls s) title (before_timeframe w)) as [df1 | e1] eqn:Hb.
  - destruct (pytrends (S (calls s)) title (after_timeframe w)) as [df2 | e2] eqn:Ha.
    + rewrite (collect_answered _ _ _ _ _ _ Hb Ha). cbn.
      exists (two_requests title w). repeat split.
      * cbn. lia.
      * same_tac.
    + rewrite (collect_after_raises _ _ _ _ _ _ Hb Ha). cbn.
      exists (two_requests title w). repeat split.
      * cbn. lia.
      * same_tac.
  - rewrite (collect_before_raises _ _ _ _ _ Hb). cbn.
    exists [Fetch [title] (before_timeframe w) "US"]. repeat split.
    + cbn. lia.
    + same_tac.
Qed.

Lemma try_block_trace (s : State) :
  exists tr,
    trace (snd (try_block' s)) = trace s ++ tr
    /\ calls (snd (try_block' s)) = (calls s + provider_calls tr)%nat
    /\ backoffs tr = O
    /\ Forall (same_subject title w) tr.
Proof.
  destruct (collect_trace s) as (tr & Ht & Hc & Hb & Hf).
  rewrite try_block_collect.
  destruct (collect' s) as [[l | e] s']; cbn in *.
  - exists (tr ++ [Log INFO ("Successfully collected data for: " ++ title)]).
    rewrite Ht, app_assoc, provider_calls_app, backoffs_app, Hb, Hc.
    repeat split; cbn; try lia.
    apply Forall_app; split; [assumption | repeat constructor].
  - exists tr. auto.
Qed.

(** A record that the [try] returns is a success record built from the
    locals of a completed [collect]. *)
Lemma try_block_ok (s s' : State) (r : ComparisonResult) :
  try_block' s = (Ok r, s') ->
  exists l s1, collect' s = (Ok l, s1) /\ r = success' l.
Proof.
  rewrite try_block_collect.
  destruct (collect' s) as [[l | e] s1]; intros H; inversion H; subst.
  now exists l, s1.
Qed.

(** The loop returns, and what it returns when passes remain. *)
Lemma retry_loop_returns (todo : nat) :
  forall (attempt : Z) (s : State),
    Z.of_nat todo = (retries - attempt)%Z ->
    (0 < todo)%nat ->
    exists r s',
      retry_loop' todo attempt s = (Returned (Some r), s')
      /\ ((exists l s0 s1, collect' s0 = (Ok l, s1) /\ r = success' l)
          \/ (exists e, r = failure' e)).
Proof.
  induction todo as [| todo IH]; intros attempt s Hn Hpos; [lia |].
  cbn [retry_loop].
  destruct (try_block' s) as [[r | e] s1] eqn:Ht.
  - exists r, s1. split; [reflexivity | left].
    destruct (try_block_ok _ _ _ Ht) as (l & s2 & Hc & Hr). now exists l, s, s2.
  - destruct (attempt <? retries - 1)%Z eqn:Hlt.
    + apply Z.ltb_lt in Hlt. apply IH; lia.
    + exists (failure' e), (exhausted title e s1). split; [reflexivity | right].
      now exists e.
Qed.

(** Whatever record the loop returns is one of the two kinds. *)
Lemma retry_loop_record (todo : nat) :
  forall (attempt : Z) (s s' : State) (r : ComparisonResult),
    retry_loop' todo attempt s = (Returned (Some r), s') ->
    (exists l s0 s1, collect' s0 = (Ok l, s1) /\ r = success' l)
    \/ (exists e, r = failure' e).
Proof.
  induction todo as [| todo IH]; intros attempt s s' r; cbn [retry_loop].
  - discriminate.
  - destruct (try_block' s) as [[r1 | e] s1] eqn:Ht.
    + intros H. inversion H; subst. left.
      destruct (try_block_ok _ _ _ Ht) as (l & s2 & Hc & Hr). now exists l, s, s2.
    + destruct (attempt <? retries - 1)%Z.
      * apply IH.
      * intros H. inversion H; subst. right. now exists e.
Qed.

(** Requests of the whole loop concern the same subject and windows. *)
Lemma retry_loop_same_subject (todo : nat) :
  forall (attempt : Z) (s : State),
    exists tr,
      trace (snd (retry_loop' todo attempt s)) = trace s ++ tr
      /\ Forall (same_subject title w) tr.
Proof.
  induction todo as [| todo IH]; intros attempt s; cbn [retry_loop].
  - exists []. cbn. now rewrite app_nil_r.
  - destruct (try_block_trace s) as (tr & Ht & _ & _ & Hf).
    destruct (try_block' s) as [[r | e] s1]; cbn in Ht.
    + exists tr. auto.
    + destruct (attempt <? retries - 1)%Z.
      * destruct (IH (attempt + 1)%Z (backoff title attempt e s1)) as (tr2 & Ht2 & Hf2).
        rewrite Ht2. unfold backoff, bind. run_state. rewrite Ht.
        eexists. rewrite <- !app_assoc. split; [reflexivity |].
        apply Forall_app; split; [assumption |]. cbn.
        repeat (constructor; [exact I |]). assumption.
      * unfold exhausted. run_state. rewrite Ht.
        eexists. rewrite <- !app_assoc. split; [reflexivity |].
        apply Forall_app; split; [assumption | repeat constructor].
Qed.
End Loop.

(** ** Failing attempts in a row *)

Section Retries.
Variable pytrends : Provider.
Variable now : string.
Variables title ban_date_str : string.
Variable retries : Z.
Variable w : Windows.

Local Abbreviation try_block' := (try_block pytrends now title ban_date_str w).
Local Abbreviation retry_loop' := (retry_loop pytrends now title ban_date_str retries w).
Local Abbreviation fails' := (provider_fails pytrends title w).

(** One attempt that the provider makes fail. *)
Lemma attempt_fails (s : State) (e : exn) (c' : nat) :
  fails' (calls s) [e] c' ->
  exists s1 tr,
    try_block' s = (Raise e, s1)
    /\ calls s1 = c'
    /\ trace s1 = trace s ++ tr
    /\ backoffs tr = O
    /\ (calls s + provider_calls tr)%nat = c'.
Proof.
  intros H. inversion H as [| c e0 es c0 Hb Hrest | c df e0 es c0 Hb Ha Hrest]; subst.
  - inversion Hrest; subst.
    rewrite try_block_collect, (collect_before_raises _ _ _ _ _ Hb).
    eexists _, [_]. repeat split. cbn. lia.
  - inversion Hrest; subst.
    rewrite try_block_collect, (collect_after_raises _ _ _ _ _ _ Hb Ha).
    eexists _, (two_requests title w). repeat split. cbn. lia.
Qed.

Lemma fails_cons (c c' : nat) (e : exn) (es : list exn) :
  fails' c (e :: es) c' ->
  exists c1, fails' c [e] c1 /\ fails' c1 es c'.
Proof.
  intros H. inversion H as [| c0 e0 es0 c0' Hb Hrest | c0 df e0 es0 c0' Hb Ha Hrest]; subst.
  - exists (S c). split; [| assumption].
    apply fails_before; [assumption | constructor].
  - exists (S (S c)). split; [| assumption].
    eapply fails_after; [eassumption | assumption | constructor].
Qed.

Lemma fails_snoc (es : list exn) :
  forall (c c' : nat) (e : exn),
    fails' c (es ++ [e]) c' ->
    exists c1, fails' c es c1 /\ fails' c1 [e] c'.
Proof.
  induction es as [| e0 es IH]; intros c c' e H; cbn in H.
  - exists c. split; [constructor | assumption].
  - destruct (fails_cons _ _ _ _ H) as (c1 & H1 & Hrest).
    destruct (IH _ _ _ Hrest) as (c2 & H2 & H3).
    exists c2. split; [| assumption].
    inversion H1 as [| ? ? ? ? Hb Hn | ? ? ? ? ? Hb Ha Hn]; subst;
      inversion Hn; subst.
    + apply fails_before; assumption.
    + eapply fails_after; eassumption.
Qed.

(** The loop walks through the failing attempts that are not the last
    one: each costs one wait of the longer delay, and the next attempt
    starts with the same subject and windows. *)
Lemma loop_through_failures (es : list exn) :
  forall (todo : nat) (attempt : Z) (s : State) (c' : nat),
    fails' (calls s) es c' ->
    (attempt + Z.of_nat (List.length es) <= retries - 1)%Z ->
    exists s2 tr,
      retry_loop' (List.length es + todo) attempt s
      = retry_loop' todo (attempt + Z.of_nat (List.length es))%Z s2
      /\ calls s2 = c'
      /\ trace s2 = trace s ++ tr
      /\ backoffs tr = List.length es
      /\ (calls s + provider_calls tr)%nat = c'.
Proof.
  induction es as [| e es IH]; intros todo attempt s c' Hf Hle.
  - inversion Hf; subst. exists s, []. cbn.
    rewrite Z.add_0_r, app_nil_r. repeat split. lia.
  - destruct (fails_cons _ _ _ _ Hf) as (c1 & H1 & Hrest).
    destruct (attempt_fails _ _ _ H1) as (s1 & tr1 & Ht & Hc1 & Htr1 & Hb1 & Hn1).
    cbn [List.length Nat.add retry_loop]. rewrite Ht.
    replace (attempt <? retries - 1)%Z with true
      by (symmetry; apply Z.ltb_lt; cbn [List.length] in Hle; lia).
    destruct (IH todo (attempt + 1)%Z (backoff title attempt e s1) c')
      as (s2 & tr2 & Hloop & Hc2 & Htr2 & Hb2 & Hn2).
    + cbn. rewrite Hc1. exact Hrest.
    + cbn [List.length] in Hle. lia.
    + exists s2, (tr1 ++ [Log WARNING
                          ("Attempt " ++ string_of_Z (attempt + 1) ++ " failed for "
                             ++ title ++ ": " ++ str e ++ ". Retrying...");
                        Sleep 20] ++ tr2).
      rewrite Hloop. repeat split.
      * f_equal. lia.
      * exact Hc2.
      * rewrite Htr2. cbn. rewrite Htr1, <- !app_assoc. reflexivity.
      * rewrite !backoffs_app, Hb1, Hb2. reflexivity.
      * rewrite !provider_calls_app. cbn in Hn2. cbn. lia.
Qed.

(** An attempt both of whose requests are answered with data succeeds,
    whatever earlier attempts left behind. *)
Lemma attempt_succeeds (s : State) (df1 df2 : DataFrame) :
  pytrends (calls s) title (before_timeframe w) = Ok df1 ->
  has_data title df1 = true ->
  pytrends (S (calls s)) title (after_timeframe w) = Ok df2 ->
  has_data title df2 = true ->
  exists s1,
    try_block' s
    = (Ok (success now title ban_date_str (fresh_locals title df1 df2)), s1)
    /\ calls s1 = S (S (calls s))
    /\ trace s1
       = trace s ++ two_requests title w
           ++ [Log INFO ("Successfully collected data for: " ++ title)].
Proof.
  intros Hb Hd1 Ha Hd2.
  rewrite try_block_collect, (collect_answered _ _ _ _ _ _ Hb Ha).
  unfold fresh_locals, rebind. cbn. rewrite Hd1, Hd2.
  destruct (window_stats title df1) as [[b_avg b_max] b_min].
  destruct (window_stats title df2) as [[a_avg a_max] a_min].
  eexists. split; [reflexivity |]. cbn. split; [reflexivity |].
  now rewrite <- app_assoc.
Qed.
End Retries.

(** ** Parsed dates are dates of the calendar *)

Lemma digit_value_range (c : ascii) (n : Z) :
  digit_value c = Some n -> (0 <= n <= 9)%Z.
Proof.
  unfold digit_value.
  destruct ((48 <=? Z.of_nat (nat_of_ascii c))%Z
            && (Z.of_nat (nat_of_ascii c) <=? 57)%Z) eqn:H; [| discriminate].
  apply andb_prop in H. destruct H as [H1 H2].
  apply Z.leb_le in H1, H2. intros [= <-]. lia.
Qed.

Lemma year_4_range (c1 c2 c3 c4 : ascii) (y : Z) :
  year_4 c1 c2 c3 c4 = Some y -> (0 <= y <= 9999)%Z.
Proof.
  unfold year_4.
  destruct (digit_value c1) as [a |] eqn:Ha; [| discriminate].
  destruct (digit_value c2) as [b |] eqn:Hb; [| discriminate].
  destruct (digit_value c3) as [c |] eqn:Hc; [| discriminate].
  destruct (digit_value c4) as [d |] eqn:Hd; [| discriminate].
  apply digit_value_range in Ha, Hb, Hc, Hd.
  intros E.
  assert (Ey : (y = 1000 * a + 100 * b + 10 * c + d)%Z) by congruence.
  lia.
Qed.

Lemma month_days (year month : Z) :
  (1 <= month <= 12)%Z ->
  (days_before_month year month + days_in_month year month
   <= 365 + (if is_leap year then 1 else 0))%Z
  /\ (0 <= days_before_month year month)%Z.
Proof.
  intros Hm.
  assert (Hcases : (month = 1 \/ month = 2 \/ month = 3 \/ month = 4
                    \/ month = 5 \/ month = 6 \/ month = 7 \/ month = 8
                    \/ month = 9 \/ month = 10 \/ month = 11 \/ month = 12)%Z)
    by lia.
  unfold days_before_month, days_in_month.
  repeat (destruct Hcases as [-> | Hcases]); try subst month;
    destruct (is_leap year); vm_compute; split; discriminate.
Qed.

Lemma ymd2ord_range (year month day : Z) :
  (1 <= year <= 9999)%Z -> (1 <= month <= 12)%Z ->
  (1 <= day <= days_in_month year month)%Z ->
  (1 <= ymd2ord year month day <= MAXORDINAL)%Z.
Proof.
  intros Hy Hm Hd.
  destruct (month_days year month Hm) as [Hup Hlow].
  unfold ymd2ord, MAXORDINAL.
  assert (Hyear : (0 <= days_before_year year)%Z
                  /\ (year <= 9998 -> days_before_year year <= 3651693)%Z
                  /\ (year = 9999 -> days_before_year year = 3651694)%Z).
  { unfold days_before_year. cbv zeta.
    split; [| split].
    - Z.div_mod_to_equations. lia.
    - intros Hle. Z.div_mod_to_equations. lia.
    - intros ->. reflexivity. }
  destruct Hyear as (H0 & Hsmall & Hlast).
  destruct (Z.eq_dec year 9999) as [-> | Hne].
  - specialize (Hlast eq_refl). change (is_leap 9999) with false in Hup. cbv iota in Hup. lia.
  - assert (Hle : (year <= 9998)%Z) by lia. specialize (Hsmall Hle).
    destruct (is_leap year); lia.
Qed.

Lemma strptime_in_calendar (s : string) (d : datetime) :
  strptime s = Ok d -> (1 <= d <= MAXORDINAL)%Z.
Proof.
  unfold strptime.
  destruct s as [| c1 [| c2 [| c3 [| c4 [| sep rest]]]]]; try discriminate.
  destruct (year_4 c1 c2 c3 c4) as [year |] eqn:Hy; [| discriminate].
  destruct (Ascii.eqb sep "-"); [| discriminate].
  destruct (split_hyphen rest) as [[mtok dtok] |]; [| discriminate].
  destruct (number_1_2 false mtok) as [month |]; [| discriminate].
  destruct (number_1_2 true dtok) as [day |]; [| discriminate].
  destruct ((1 <=? month)%Z && (month <=? 12)%Z && (1 <=? day)%Z && (day <=? 31)%Z)
    eqn:Hform; [| discriminate].
  destruct (Z.ltb_spec year 1); [discriminate |].
  destruct (Z.leb_spec day (days_in_month year month)); [| discriminate].
  intros [= <-].
  apply andb_prop in Hform. destruct Hform as [Hform Hd31].
  apply andb_prop in Hform. destruct Hform as [Hform Hd1].
  apply andb_prop in Hform. destruct Hform as [Hm1 Hm12].
  apply Z.leb_le in Hm1, Hm12, Hd1, Hd31.
  apply year_4_range in Hy.
  apply ymd2ord_range; lia.
Qed.

(** The dates at which the parser stops, and the first and last dates
    whose windows fit. *)
Lemma calendar_examples :
  strptime "2022-09-01" = Ok 738399%Z
  /\ strptime "2022-9-1" = Ok 738399%Z
  /\ strptime "2024-02-29" = Ok (ymd2ord 2024 2 29)
  /\ strptime "2022-02-29" = Raise (ValueError "day is out of range for month")
  /\ strptime "0000-01-01" = Raise (ValueError "year 0 is out of range")
  /\ strptime "09/01/2022" = Raise (bad_format "09/01/2022")
  /\ strftime 1%Z = "0001-01-01"%string
  /\ strftime 91%Z = "0001-04-01"%string
  /\ strftime (MAXORDINAL - 90)%Z = "9999-10-02"%string
  /\ strftime MAXORDINAL = "9999-12-31"%string
  /\ before_timeframe example_windows = "2022-06-03 2022-08-31"%string
  /\ after_timeframe example_windows = "2022-09-02 2022-11-30"%string.
Proof. repeat split; reflexivity. Qed.

(** ** The windows *)

Lemma windows_ok (d : datetime) :
  windows_fit d ->
  windows d =
    Ok {| before_start := (d - 90)%Z; before_end := (d - 1)%Z;
          after_start := (d + 1)%Z; after_end := (d + 90)%Z |}.
Proof.
  unfold windows_fit, windows, add_days, MAXORDINAL. intros [H1 H2].
  replace (d + -90)%Z with (d - 90)%Z by lia.
  replace (d + -1)%Z with (d - 1)%Z by lia.
  repeat match goal with
         | |- context [(?a <? ?b)%Z] => destruct (Z.ltb_spec a b); try lia
         | |- context [(?a <=? ?b)%Z] => destruct (Z.leb_spec a b); try lia
         end.
  reflexivity.
Qed.

(** C6, as the code has it: for every date whose two windows stay within
    the calendar of [datetime] (0001-04-01 to 9999-10-02), the windows are
    [D - 90, D - 1] and [D + 1, D + 90]; each spans 90 days counting both
    ends, the first ends before the second starts, and the second starts two
    days after the first ends. *)
Theorem windows_of_event_date (d : datetime) :
  windows_fit d ->
  exists w,
    windows d = Ok w
    /\ before_start w = (d - 90)%Z /\ before_end w = (d - 1)%Z
    /\ after_start w = (d + 1)%Z /\ after_end w = (d + 90)%Z
    /\ (before_end w - before_start w + 1 = 90)%Z
    /\ (after_end w - after_start w + 1 = 90)%Z
    /\ (before_end w < after_start w)%Z
    /\ (after_start w - before_end w = 2)%Z.
Proof.
  intros Hfit. eexists. split; [apply windows_ok; exact Hfit |].
  cbn. repeat split; lia.
Qed.

Lemma windows_of_event_date_witness :
  strptime "2022-09-01" = Ok 738399%Z
  /\ windows_fit 738399%Z
  /\ exists w,
       windows 738399%Z = Ok w
       /\ before_start w = (738399 - 90)%Z /\ before_end w = (738399 - 1)%Z
       /\ after_start w = (738399 + 1)%Z /\ after_end w = (738399 + 90)%Z
       /\ (before_end w - before_start w + 1 = 90)%Z
       /\ (after_end w - after_start w + 1 = 90)%Z
       /\ (before_end w < after_start w)%Z
       /\ (after_start w - before_end w = 2)%Z.
Proof.
  split; [reflexivity |].
  assert (Hfit : windows_fit 738399%Z) by (unfold windows_fit, MAXORDINAL; lia).
  split; [exact Hfit | exact (windows_of_event_date 738399%Z Hfit)].
Defined.

(** C6 as stated fails at the last valid date: "9999-12-31" parses, and
    no window is computed for it. *)
Lemma windows_overflow_at_last_date :
  strptime "9999-12-31" = Ok MAXORDINAL
  /\ windows MAXORDINAL = Raise (OverflowError "date value out of range").
Proof. split; reflexivity. Qed.

(** ** How a call ends *)

(** C1, as the code has it: a call always ends, in exactly one of four
    ways, decided in this order.  A date that does not parse makes it
    return [None].  A date that parses and whose windows leave the calendar
    makes [OverflowError] escape, whatever the number of attempts, also
    below one: the windows are computed before the loop.  A date that
    parses, with windows in the calendar and a number of attempts below
    one, makes it return [None].  In every other case, whatever the
    provider does, it returns a record, of the success or of the failure
    kind. *)
Theorem get_trends_data_outcome
  (pytrends : Provider) (now title ban_date_str : string) (retries : Z) :
  match strptime ban_date_str with
  | Raise _ =>
      fst (get_trends_data pytrends now title ban_date_str retries) = Returned None
  | Ok d =>
      match windows d with
      | Raise e =>
          fst (get_trends_data pytrends now title ban_date_str retries) = Escaped e
      | Ok _ =>
          if (retries <=? 0)%Z
          then fst (get_trends_data pytrends now title ban_date_str retries)
               = Returned None
          else exists r,
                 fst (get_trends_data pytrends now title ban_date_str retries)
                 = Returned (Some r)
                 /\ ((collection_successful r = true /\ error r = None)
                     \/ (collection_successful r = false /\ error r <> None))
      end
  end.
Proof.
  unfold get_trends_data.
  destruct (strptime ban_date_str) as [d | e]; [| reflexivity].
  destruct (windows d) as [w | e]; [| reflexivity].
  destruct (Z.leb_spec retries 0) as [Hle | Hgt].
  - replace (Z.to_nat retries) with O by lia. reflexivity.
  - destruct (retry_loop_returns pytrends now title ban_date_str retries w
                (Z.to_nat retries) 0%Z initial) as (r & s' & Hr & Hkind);
      [lia | lia |].
    rewrite Hr. exists r. split; [reflexivity |].
    destruct Hkind as [(l & s0 & s1 & _ & ->) | (e & ->)]; cbn.
    + left. split; reflexivity.
    + right. split; [reflexivity | discriminate].
Qed.

(** C1 as stated fails in three ways: a malformed date and a budget of no
    attempt end in [None], not in a record, and the last date of the
    calendar lets an exception out. *)
Lemma get_trends_data_without_record :
  fst (get_trends_data example_book a_moment "Example Book"
         "2022-13-40" 3) = Returned None
  /\ fst (get_trends_data example_book a_moment "Example Book"
            "2022-09-01" 0) = Returned None
  /\ fst (get_trends_data example_book a_moment "Example Book"
            "9999-12-31" 3)
     = Escaped (OverflowError "date value out of range").
Proof. repeat split; reflexivity. Qed.

(** ** Malformed dates *)

(** C2, as the code has it: when the date text does not parse, the call
    logs one error line that names the subject and the text, and returns
    [None] at once: no record, no request to the provider, no wait. *)
Theorem malformed_date_returns_none
  (pytrends : Provider) (now title ban_date_str : string) (retries : Z) (e : exn) :
  strptime ban_date_str = Raise e ->
  get_trends_data pytrends now title ban_date_str retries
  = (Returned None,
     [Log ERROR ("Invalid date format for " ++ title ++ ": " ++ ban_date_str)])
  /\ provider_calls (snd (get_trends_data pytrends now title ban_date_str retries)) = O
  /\ backoffs (snd (get_trends_data pytrends now title ban_date_str retries)) = O.
Proof.
  intros H. unfold get_trends_data. rewrite H. repeat split.
Qed.

Lemma malformed_date_returns_none_witness :
  strptime "2022-13-40"
  = Raise (ValueError "time data '2022-13-40' does not match format '%Y-%m-%d'")
  /\ get_trends_data throttled a_moment "Example Book" "2022-13-40" 3
     = (Returned None,
        [Log ERROR "Invalid date format for Example Book: 2022-13-40"]).
Proof.
  split; [reflexivity |].
  exact (proj1 (malformed_date_returns_none throttled a_moment
                  "Example Book" "2022-13-40" 3 _ eq_refl)).
Defined.

(** C2 as stated fails: the value returned for "2022-13-40" is [None], so
    there is no failure record and no error field. *)
Lemma malformed_date_gives_no_record :
  get_trends_data example_book a_moment "Example Book" "2022-13-40" 3
  = (Returned None, [Log ERROR "Invalid date format for Example Book: 2022-13-40"]).
Proof. reflexivity. Qed.

(** ** Returned records *)

(** A returned record that carries the success flag was built from the
    locals of a pass of [collect] that ran to its end. *)
Lemma returned_success_origin
  (pytrends : Provider) (now title ban_date_str : string) (retries : Z)
  (r : ComparisonResult) :
  fst (get_trends_data pytrends now title ban_date_str retries) = Returned (Some r) ->
  collection_successful r = true ->
  exists d w l s0 s1,
    strptime ban_date_str = Ok d /\ windows d = Ok w
    /\ collect pytrends title w s0 = (Ok l, s1)
    /\ r = success now title ban_date_str l.
Proof.
  unfold get_trends_data.
  destruct (strptime ban_date_str) as [d | e] eqn:Hd; [| discriminate].
  destruct (windows d) as [w | e] eqn:Hw; [| discriminate].
  destruct (retry_loop pytrends now title ban_date_str retries w
              (Z.to_nat retries) 0%Z initial) as [res s'] eqn:Hloop.
  cbn [fst]. intros -> Hflag.
  destruct (retry_loop_record _ _ _ _ _ _ _ _ _ _ _ Hloop)
    as [(l & s0 & s1 & Hc & ->) | (e & ->)]; [| discriminate].
  exists d, w, l, s0, s1. auto.
Qed.

Lemma returned_record_kind
  (pytrends : Provider) (now title ban_date_str : string) (retries : Z)
  (r : ComparisonResult) :
  fst (get_trends_data pytrends now title ban_date_str retries) = Returned (Some r) ->
  (exists l, r = success now title ban_date_str l)
  \/ (exists e, r = failure now title ban_date_str e).
Proof.
  unfold get_trends_data.
  destruct (strptime ban_date_str) as [d | e]; [| discriminate].
  destruct (windows d) as [w | e]; [| discriminate].
  destruct (retry_loop pytrends now title ban_date_str retries w
              (Z.to_nat retries) 0%Z initial) as [res s'] eqn:Hloop.
  cbn [fst]. intros ->.
  destruct (retry_loop_record _ _ _ _ _ _ _ _ _ _ _ Hloop)
    as [(l & s0 & s1 & Hc & ->) | (e & ->)]; [left | right]; eauto.
Qed.

(** C5: in every attempt that succeeds, the two change metrics follow the
    three cases on the averages [before_avg] and [after_avg] of that
    attempt; the record holds these metrics through [round(., 2)]. *)
Theorem change_metrics_by_cases
  (pytrends : Provider) (now title ban_date_str : string) (retries : Z)
  (r : ComparisonResult) :
  fst (get_trends_data pytrends now title ban_date_str retries) = Returned (Some r) ->
  collection_successful r = true ->
  exists w l s0 s1,
    collect pytrends title w s0 = (Ok l, s1)
    /\ r = success now title ban_date_str l
    /\ ((0 <? before_avg l)%float = true ->
        l_percent_change l
        = (((after_avg l - before_avg l) / before_avg l) * 100)%float
        /\ l_absolute_change l = (after_avg l - before_avg l)%float)
    /\ ((before_avg l =? 0)%float = true -> (after_avg l =? 0)%float = true ->
        l_percent_change l = 0%float)
    /\ ((before_avg l =? 0)%float = true -> (0 <? after_avg l)%float = true ->
        l_percent_change l = infinity /\ l_absolute_change l = after_avg l).
Proof.
  intros Hres Hflag.
  destruct (returned_success_origin _ _ _ _ _ _ Hres Hflag)
    as (d & w & l & s0 & s1 & _ & _ & Hc & Hr).
  exists w, l, s0, s1. split; [exact Hc |]. split; [exact Hr |].
  destruct (collect_metrics _ _ _ _ _ _ Hc) as (Hp & Ha & _).
  rewrite Hp, Ha. unfold percent_change_of, absolute_change_of.
  split; [| split].
  - intros Hpos. now rewrite Hpos.
  - intros Hb0 Ha0. now rewrite (eq0_not_pos _ Hb0), Ha0.
  - intros Hb0 Hpos. now rewrite (eq0_not_pos _ Hb0), (pos_not_eq0 _ Hpos).
Qed.

(** The scenario of the specification, run: 20 and 50 on average, a rise of
    150 percent, 30 in absolute terms, and a volatility of 17.08. *)
Lemma example_book_run :
  fst (get_trends_data example_book a_moment "Example Book" "2022-09-01" 3)
  = Returned (Some example_record).
Proof. reflexivity. Qed.

Lemma change_metrics_by_cases_witness :
  fst (get_trends_data example_book a_moment "Example Book" "2022-09-01" 3)
  = Returned (Some example_record)
  /\ exists w l s0 s1,
       collect example_book "Example Book" w s0 = (Ok l, s1)
       /\ example_record = success a_moment "Example Book" "2022-09-01" l
       /\ ((0 <? before_avg l)%float = true ->
           l_percent_change l
           = (((after_avg l - before_avg l) / before_avg l) * 100)%float
           /\ l_absolute_change l = (after_avg l - before_avg l)%float)
       /\ ((before_avg l =? 0)%float = true -> (after_avg l =? 0)%float = true ->
           l_percent_change l = 0%float)
       /\ ((before_avg l =? 0)%float = true -> (0 <? after_avg l)%float = true ->
           l_percent_change l = infinity /\ l_absolute_change l = after_avg l).
Proof.
  assert (Hrun : fst (get_trends_data example_book a_moment "Example Book"
                        "2022-09-01" 3) = Returned (Some example_record))
    by reflexivity.
  split; [exact Hrun |].
  exact (change_metrics_by_cases example_book a_moment "Example Book"
           "2022-09-01" 3 example_record Hrun eq_refl).
Defined.

(** C8: in every record a call returns, the success flag is set exactly
    when all nine numeric fields hold a value, and it is clear exactly when
    all nine are null and an error text is present; the numeric fields are
    never present in part. *)
Theorem success_flag_iff_fields
  (pytrends : Provider) (now title ban_date_str : string) (retries : Z)
  (r : ComparisonResult) :
  fst (get_trends_data pytrends now title ban_date_str retries) = Returned (Some r) ->
  (collection_successful r = true <-> all_present r = true)
  /\ (collection_successful r = false
      <-> (all_absent r = true /\ error r <> None))
  /\ (all_present r = true \/ all_absent r = true).
Proof.
  intros Hres.
  destruct (returned_record_kind _ _ _ _ _ _ Hres) as [(l & ->) | (e & ->)]; cbn.
  - repeat split; try discriminate; auto.
    intros [H _]. discriminate.
  - repeat split; try discriminate; auto.
Qed.

Lemma success_flag_iff_fields_witness :
  fst (get_trends_data throttled a_moment "Example Book" "2022-09-01" 3)
  = Returned (Some throttled_record)
  /\ (collection_successful throttled_record = true
      <-> all_present throttled_record = true)
  /\ (collection_successful throttled_record = false
      <-> (all_absent throttled_record = true /\ error throttled_record <> None))
  /\ (all_present throttled_record = true \/ all_absent throttled_record = true).
Proof.
  assert (Hrun : fst (get_trends_data throttled a_moment "Example Book"
                        "2022-09-01" 3) = Returned (Some throttled_record))
    by reflexivity.
  split; [exact Hrun |].
  exact (success_flag_iff_fields throttled a_moment "Example Book"
           "2022-09-01" 3 throttled_record Hrun).
Defined.

(** C10, as the code has it: the record of a successful attempt has the
    success flag set, carries the clock reading, and holds the two
    averages, the percent change, the absolute change and the volatility
    rounded to two decimals; the two maxima and the two minima are stored
    as computed, without rounding. *)
Theorem success_record_fields
  (pytrends : Provider) (now title ban_date_str : string) (retries : Z)
  (r : ComparisonResult) :
  fst (get_trends_data pytrends now title ban_date_str retries) = Returned (Some r) ->
  collection_successful r = true ->
  exists w l s0 s1,
    collect pytrends title w s0 = (Ok l, s1)
    /\ data_collected r = now
    /\ avg_search_before r = Some (Numpy.round2 (before_avg l))
    /\ avg_search_after r = Some (Numpy.round2 (after_avg l))
    /\ percent_change r = Some (Numpy.round2 (l_percent_change l))
    /\ absolute_change r = Some (Numpy.round2 (l_absolute_change l))
    /\ volatility r = Some (Numpy.round2 (l_volatility l))
    /\ max_search_before r = Some (before_max l)
    /\ max_search_after r = Some (after_max l)
    /\ min_search_before r = Some (before_min l)
    /\ min_search_after r = Some (after_min l).
Proof.
  intros Hres Hflag.
  destruct (returned_success_origin _ _ _ _ _ _ Hres Hflag)
    as (d & w & l & s0 & s1 & _ & _ & Hc & ->).
  exists w, l, s0, s1. split; [exact Hc |]. cbn. repeat split.
Qed.

Lemma success_record_fields_witness :
  fst (get_trends_data example_book a_moment "Example Book" "2022-09-01" 3)
  = Returned (Some example_record)
  /\ exists w l s0 s1,
       collect example_book "Example Book" w s0 = (Ok l, s1)
       /\ data_collected example_record = a_moment
       /\ avg_search_before example_record = Some (Numpy.round2 (before_avg l))
       /\ avg_search_after example_record = Some (Numpy.round2 (after_avg l))
       /\ percent_change example_record = Some (Numpy.round2 (l_percent_change l))
       /\ absolute_change example_record = Some (Numpy.round2 (l_absolute_change l))
       /\ volatility example_record = Some (Numpy.round2 (l_volatility l))
       /\ max_search_before example_record = Some (before_max l)
       /\ max_search_after example_record = Some (after_max l)
       /\ min_search_before example_record = Some (before_min l)
       /\ min_search_after example_record = Some (after_min l).
Proof.
  assert (Hrun : fst (get_trends_data example_book a_moment "Example Book"
                        "2022-09-01" 3) = Returned (Some example_record))
    by reflexivity.
  split; [exact Hrun |].
  exact (success_record_fields example_book a_moment "Example Book"
           "2022-09-01" 3 example_record Hrun eq_refl).
Defined.

(** C10 as stated fails on the maxima and minima: with a score of 10.0625
    the record holds 10.0625 as maximum and minimum of the window, while
    the average of the same window is stored as 10.06. *)
Lemma extrema_are_not_rounded :
  exists r,
    fst (get_trends_data fractional a_moment "Example Book" "2022-09-01" 3)
    = Returned (Some r)
    /\ collection_successful r = true
    /\ avg_search_before r = Some f_10_06
    /\ max_search_before r = Some 10.0625%float
    /\ min_search_before r = Some 10.0625%float
    /\ Numpy.round2 10.0625 = f_10_06
    /\ (10.0625 =? f_10_06)%float = false.
Proof. eexists. repeat split; reflexivity. Qed.

(** ** Retries *)

Lemma get_trends_data_loop
  (pytrends : Provider) (now title ban_date_str : string) (retries : Z)
  (d : datetime) (w : Windows) :
  strptime ban_date_str = Ok d ->
  windows d = Ok w ->
  get_trends_data pytrends now title ban_date_str retries
  = (fst (retry_loop pytrends now title ban_date_str retries w
            (Z.to_nat retries) 0%Z initial),
     trace (snd (retry_loop pytrends now title ban_date_str retries w
                   (Z.to_nat retries) 0%Z initial))).
Proof.
  intros Hd Hw. unfold get_trends_data. rewrite Hd, Hw.
  now destruct (retry_loop pytrends now title ban_date_str retries w
                  (Z.to_nat retries) 0%Z initial).
Qed.

(** C7, as the code has it: for a date that parses, windows that fit the
    calendar and a budget of [retries >= 1] attempts,
    - when the provider makes all [retries] attempts fail, the call returns
      the failure record whose error is the text of the last exception,
      after [retries - 1] waits of 20;
    - when the provider makes the first [k - 1] attempts fail and answers
      both requests of attempt [k <= retries] with data, the call returns
      the success record computed from these two answers, after exactly
      [k - 1] waits of 20;
    - every request of the call is for the same subject and one of the same
      two windows. *)
Theorem retry_policy
  (pytrends : Provider) (now title ban_date_str : string) (retries : Z)
  (d : datetime) (w : Windows) :
  strptime ban_date_str = Ok d ->
  windows d = Ok w ->
  (1 <= retries)%Z ->
  (forall (es : list exn) (e : exn) (c' : nat),
      provider_fails pytrends title w O (es ++ [e]) c' ->
      (Z.of_nat (List.length es) + 1 = retries)%Z ->
      fst (get_trends_data pytrends now title ban_date_str retries)
      = Returned (Some (failure now title ban_date_str e))
      /\ error (failure now title ban_date_str e) = Some (str e)
      /\ all_absent (failure now title ban_date_str e) = true
      /\ backoffs (snd (get_trends_data pytrends now title ban_date_str retries))
         = List.length es
      /\ provider_calls (snd (get_trends_data pytrends now title ban_date_str retries))
         = c')
  /\ (forall (es : list exn) (c : nat) (df1 df2 : DataFrame),
         provider_fails pytrends title w O es c ->
         (Z.of_nat (List.length es) + 1 <= retries)%Z ->
         pytrends c title (before_timeframe w) = Ok df1 ->
         has_data title df1 = true ->
         pytrends (S c) title (after_timeframe w) = Ok df2 ->
         has_data title df2 = true ->
         fst (get_trends_data pytrends now title ban_date_str retries)
         = Returned (Some (success now title ban_date_str
                             (fresh_locals title df1 df2)))
         /\ backoffs (snd (get_trends_data pytrends now title ban_date_str retries))
            = List.length es
         /\ provider_calls
              (snd (get_trends_data pytrends now title ban_date_str retries))
            = S (S c))
  /\ Forall (same_subject title w)
       (snd (get_trends_data pytrends now title ban_date_str retries)).
Proof.
  intros Hd Hw Hpos.
  rewrite (get_trends_data_loop _ _ _ _ _ _ _ Hd Hw). cbn [fst snd].
  split; [| split].
  - intros es e c' Hf Hn.
    destruct (fails_snoc _ _ _ _ _ _ _ Hf) as (c1 & Hes & He).
    destruct (loop_through_failures pytrends now title ban_date_str retries w
                es 1%nat 0%Z initial c1 Hes)
      as (s2 & tr & Hloop & Hc2 & Htr & Hb & Hn2); [lia |].
    replace (Z.to_nat retries) with (List.length es + 1)%nat by lia.
    rewrite Hloop. cbn [retry_loop].
    rewrite <- Hc2 in He.
    destruct (attempt_fails pytrends now title ban_date_str w s2 e c' He)
      as (s1 & tr1 & Ht & Hc1 & Htr1 & Hb1 & Hn1).
    rewrite Ht.
    replace (0 + Z.of_nat (List.length es) <? retries - 1)%Z with false
      by (symmetry; apply Z.ltb_ge; lia).
    cbn [fst snd]. split; [reflexivity |]. split; [reflexivity |].
    split; [reflexivity |].
    unfold exhausted, logging, emit, record. cbn [snd trace].
    rewrite Htr1, Htr. cbn [trace initial app].
    rewrite !backoffs_app, !provider_calls_app, Hb, Hb1.
    cbn in Hn2. cbn. split; lia.
  - intros es c df1 df2 Hf Hn Hb1 Hd1 Hb2 Hd2.
    assert (Hsplit : exists todo, Z.to_nat retries = (List.length es + S todo)%nat)
      by (exists (Z.to_nat retries - List.length es - 1)%nat; lia).
    destruct Hsplit as (todo & ->).
    destruct (loop_through_failures pytrends now title ban_date_str retries w
                es (S todo) 0%Z initial c Hf)
      as (s2 & tr & Hloop & Hc2 & Htr & Hb & Hn2); [lia |].
    rewrite Hloop. cbn [retry_loop].
    rewrite <- Hc2 in Hb1, Hb2.
    destruct (attempt_succeeds pytrends now title ban_date_str w s2 df1 df2
                Hb1 Hd1 Hb2 Hd2) as (s1 & Ht & Hc1 & Htr1).
    rewrite Ht. cbn [fst snd]. split; [reflexivity |].
    rewrite Htr1, Htr. cbn [trace initial app].
    rewrite !backoffs_app, !provider_calls_app, Hb.
    cbn in Hn2. cbn. split; lia.
  - destruct (retry_loop_same_subject pytrends now title ban_date_str retries w
                (Z.to_nat retries) 0%Z initial) as (tr & Htr & Hsame).
    rewrite Htr. exact Hsame.
Qed.

Lemma retry_policy_witness :
  strptime "2022-09-01" = Ok 738399%Z
  /\ windows 738399%Z = Ok example_windows
  /\ (1 <= 3)%Z
  /\ provider_fails flaky "Example Book" example_windows O
       [ProviderError "timeout"; ProviderError "code 429"] 3
  /\ fst (get_trends_data flaky a_moment "Example Book" "2022-09-01" 3)
     = Returned (Some example_record)
  /\ backoffs (snd (get_trends_data flaky a_moment "Example Book" "2022-09-01" 3))
     = 2%nat
  /\ provider_calls
       (snd (get_trends_data flaky a_moment "Example Book" "2022-09-01" 3))
     = 5%nat.
Proof.
  assert (Hpos : (1 <= 3)%Z) by lia.
  assert (Hfails : provider_fails flaky "Example Book" example_windows O
                     [ProviderError "timeout"; ProviderError "code 429"] 3).
  { apply fails_before; [reflexivity |].
    eapply fails_after; [reflexivity | reflexivity | apply fails_none]. }
  split; [reflexivity |]. split; [reflexivity |]. split; [exact Hpos |].
  split; [exact Hfails |].
  assert (Hle : (Z.of_nat 2 + 1 <= 3)%Z) by (cbn; lia).
  destruct (retry_policy flaky a_moment "Example Book" "2022-09-01" 3
              738399%Z example_windows eq_refl eq_refl Hpos) as (_ & Hsucc & _).
  exact (Hsucc [ProviderError "timeout"; ProviderError "code 429"] 3%nat
           (frame "Example Book" [10; 20; 30]%float)
           (frame "Example Book" [40; 50; 60]%float)
           Hfails Hle eq_refl eq_refl eq_refl eq_refl).
Defined.

(** C7 as stated fails for a budget of no attempt: the provider fails on
    all zero attempts, and the call returns [None], not a failure record. *)
Lemma no_attempt_no_record :
  strptime "2022-09-01" = Ok 738399%Z
  /\ get_trends_data throttled a_moment "Example Book" "2022-09-01" 0
     = (Returned None, []).
Proof. split; reflexivity. Qed.

(** ** Windows without data *)

(** C4, as the code has it: take an attempt whose request for the window
    before the ban is answered.  If that answer has no data for the subject
    while [before_values] is still unbound, or the answer for the window
    after the ban has no data while [after_values] is still unbound (in the
    first attempt of a call both are unbound), the attempt ends in an
    exception.  When both requests were answered it is the
    [UnboundLocalError] (a [NameError]) of the pooled-values line.  The
    handler treats it as any other exception: one more wait of 20 and a new
    attempt when attempts remain, the failure record otherwise.  The
    attempt yields no success record. *)
Theorem unbound_values_fail_attempt
  (pytrends : Provider) (now title ban_date_str : string) (retries : Z)
  (w : Windows) (s : State) (df1 : DataFrame) :
  pytrends (calls s) title (before_timeframe w) = Ok df1 ->
  (before_values s = None /\ has_data title df1 = false)
  \/ (after_values s = None
      /\ exists df2,
           pytrends (S (calls s)) title (after_timeframe w) = Ok df2
           /\ has_data title df2 = false) ->
  exists e s1,
    try_block pytrends now title ban_date_str w s = (Raise e, s1)
    /\ ((exists df2, pytrends (S (calls s)) title (after_timeframe w) = Ok df2) ->
        e = UnboundLocalError "before_values"
        \/ e = UnboundLocalError "after_values")
    /\ (forall (todo : nat) (attempt : Z),
           retry_loop pytrends now title ban_date_str retries w (S todo) attempt s
           = if (attempt <? retries - 1)%Z
             then retry_loop pytrends now title ban_date_str retries w todo
                    (attempt + 1)%Z (backoff title attempt e s1)
             else (Returned (Some (failure now title ban_date_str e)),
                   exhausted title e s1)).
Proof.
  intros Hb Hcase.
  assert (Hraise : exists e s1,
             try_block pytrends now title ban_date_str w s = (Raise e, s1)
             /\ ((exists df2,
                     pytrends (S (calls s)) title (after_timeframe w) = Ok df2) ->
                 e = UnboundLocalError "before_values"
                 \/ e = UnboundLocalError "after_values")).
  { rewrite try_block_collect.
    destruct (pytrends (S (calls s)) title (after_timeframe w)) as [df2 | e2] eqn:Ha.
    - rewrite (collect_answered _ _ _ _ _ _ Hb Ha). cbn. unfold rebind.
      destruct Hcase as [[Hnone Hd1] | [Hnone (df & Hdf & Hd2)]].
      + rewrite Hd1, Hnone. eexists _, _. split; [reflexivity | auto].
      + inversion Hdf; subst df. rewrite Hd2, Hnone.
        destruct (if has_data title df1 then Some (column_values title df1)
                  else before_values s);
          eexists _, _; (split; [reflexivity | auto]).
    - rewrite (collect_after_raises _ _ _ _ _ _ Hb Ha).
      eexists _, _. split; [reflexivity |].
      intros (df & Hdf). discriminate. }
  destruct Hraise as (e & s1 & Ht & Hname).
  exists e, s1. split; [exact Ht |]. split; [exact Hname |].
  intros todo attempt. cbn [retry_loop]. now rewrite Ht.
Qed.

Lemma unbound_values_fail_attempt_witness :
  nothing_before (calls initial) "Example Book"%string (before_timeframe example_windows)
  = Ok no_data
  /\ before_values initial = None
  /\ has_data "Example Book" no_data = false
  /\ exists e s1,
       try_block nothing_before a_moment "Example Book" "2022-09-01"
         example_windows initial = (Raise e, s1)
       /\ ((exists df2,
               nothing_before (S (calls initial)) "Example Book"%string
                 (after_timeframe example_windows) = Ok df2) ->
           e = UnboundLocalError "before_values"
           \/ e = UnboundLocalError "after_values")
       /\ (forall (todo : nat) (attempt : Z),
              retry_loop nothing_before a_moment "Example Book" "2022-09-01" 3
                example_windows (S todo) attempt initial
              = if (attempt <? 3 - 1)%Z
                then retry_loop nothing_before a_moment "Example Book" "2022-09-01"
                       3 example_windows todo (attempt + 1)%Z
                       (backoff "Example Book" attempt e s1)
                else (Returned
                        (Some (failure a_moment "Example Book" "2022-09-01" e)),
                      exhausted "Example Book" e s1)).
Proof.
  split; [reflexivity |]. split; [reflexivity |]. split; [reflexivity |].
  exact (unbound_values_fail_attempt nothing_before a_moment "Example Book"
           "2022-09-01" 3 example_windows initial no_data eq_refl
           (or_introl (conj eq_refl eq_refl))).
Defined.

(** C4 as stated fails from the second attempt on.  Here the first attempt
    binds [before_values] to the scores 10 and 20 and is then throttled; in
    the second attempt the provider has no data for the window before the
    ban (third request), and yet the attempt returns a success record. *)
Lemma stale_values_let_attempt_succeed :
  throttled_once 2 "Example Book"%string (before_timeframe example_windows) = Ok no_data
  /\ has_data "Example Book" no_data = false
  /\ exists r,
       fst (get_trends_data throttled_once a_moment "Example Book" "2022-09-01" 2)
       = Returned (Some r)
       /\ collection_successful r = true
       /\ avg_search_before r = Some 0%float
       /\ provider_calls
            (snd (get_trends_data throttled_once a_moment "Example Book"
                    "2022-09-01" 2)) = 4%nat.
Proof.
  split; [reflexivity |]. split; [reflexivity |].
  eexists. repeat split; reflexivity.
Qed.

(** C3 fails on the code: when the provider has no data for the window
    before the ban, the zeros of line 110 are set, but line 136 then reads
    [before_values], which no assignment has reached; every attempt ends in
    that exception, the call waits twice and returns the failure record. *)
Theorem empty_window_fails_every_attempt :
  nothing_before 0 "Example Book"%string (before_timeframe example_windows) = Ok no_data
  /\ fst (get_trends_data nothing_before a_moment "Example Book" "2022-09-01" 3)
     = Returned
         (Some (failure a_moment "Example Book" "2022-09-01"
                  (UnboundLocalError "before_values")))
  /\ error (failure a_moment "Example Book" "2022-09-01"
              (UnboundLocalError "before_values"))
     = Some ("cannot access local variable 'before_values' "
               ++ "where it is not associated with a value")%string
  /\ avg_search_before (failure a_moment "Example Book" "2022-09-01"
                          (UnboundLocalError "before_values")) = None
  /\ backoffs (snd (get_trends_data nothing_before a_moment "Example Book"
                      "2022-09-01" 3)) = 2%nat
  /\ provider_calls (snd (get_trends_data nothing_before a_moment "Example Book"
                            "2022-09-01" 3)) = 6%nat.
Proof. repeat split; reflexivity. Qed.

(** C9 fails on the code in an attempt that follows a throttled one: the
    second attempt observes nothing for the window before the ban and the
    score 5 for the window after it, so its pooled observations are [5],
    with a standard deviation of 0; the record holds 0 as the average
    before the ban and yet 6.24 as volatility, the standard deviation of
    10, 20 and 5, the first two left in [before_values] by the first
    attempt. *)
Theorem volatility_pools_stale_values :
  exists r,
    fst (get_trends_data throttled_once a_moment "Example Book" "2022-09-01" 2)
    = Returned (Some r)
    /\ collection_successful r = true
    /\ avg_search_before r = Some 0%float
    /\ avg_search_after r = Some 5%float
    /\ volatility r = Some (Numpy.round2 (Numpy.std [10; 20; 5]%float))
    /\ volatility r = Some f_6_24
    /\ Numpy.round2 (volatility_of ([] ++ [5]%float)) = 0%float.
Proof. eexists. repeat split; reflexivity. Qed.

(** When both requests of the successful attempt are answered with data,
    the pooled list is the one of that attempt: the scenario of the
    specification. *)
Lemma example_book_volatility :
  volatility example_record
  = Some (Numpy.round2 (Numpy.std [10; 20; 30; 40; 50; 60]%float))
  /\ (Numpy.std [10; 20; 30; 40; 50; 60] - f_17_08 <? 0.00390625)%float = true
  /\ (f_17_08 - Numpy.std [10; 20; 30; 40; 50; 60] <? 0.00390625)%float = true.
Proof. repeat split; reflexivity. Qed.

(** * Further properties of [get_trends_data] *)

(** ** Effort of a call *)

Lemma naps_app (t1 t2 : list event) : naps (t1 ++ t2) = (naps t1 + naps t2)%nat.
Proof. unfold naps. now rewrite filter_app, length_app. Qed.

Lemma warnings_app (t1 t2 : list event) :
  warnings (t1 ++ t2) = (warnings t1 + warnings t2)%nat.
Proof. unfold warnings. now rewrite filter_app, length_app. Qed.

Lemma sleeping_app (t1 t2 : list event) :
  sleeping (t1 ++ t2) = (sleeping t1 + sleeping t2)%Z.
Proof.
  induction t1 as [| ev t1 IH]; [reflexivity |].
  destruct ev; cbn; rewrite IH; lia.
Qed.

Lemma last_event_app (t1 t2 : list event) (lvl : level) (msg : string) :
  last_event t2 = Log lvl msg -> last_event (t1 ++ t2) = Log lvl msg.
Proof.
  unfold last_event. intros H.
  destruct t2 as [| ev t2]; [discriminate |].
  induction t1 as [| ev1 t1 IH]; [exact H |].
  cbn [app]. destruct (t1 ++ ev :: t2) eqn:E; [| exact IH].
  destruct t1; discriminate.
Qed.

Section Effort.
Variable pytrends : Provider.
Variable now : string.
Variables title ban_date_str : string.
Variable retries : Z.
Variable w : Windows.

Local Abbreviation try_block' := (try_block pytrends now title ban_date_str w).
Local Abbreviation retry_loop' := (retry_loop pytrends now title ban_date_str retries w).

(** The three traces one attempt can leave. *)
Lemma try_block_shape (s : State) :
  exists tr,
    trace (snd (try_block' s)) = trace s ++ tr
    /\ match fst (try_block' s) with
       | Ok r =>
           (exists l, r = success now title ban_date_str l)
           /\ tr = two_requests title w
                   ++ [Log INFO ("Successfully collected data for: " ++ title)]
       | Raise _ =>
           tr = [Fetch [title] (before_timeframe w) "US"]
           \/ tr = two_requests title w
       end.
Proof.
  rewrite try_block_collect.
  destruct (pytrends (calls s) title (before_timeframe w)) as [df1 | e1] eqn:Hb.
  - destruct (pytrends (S (calls s)) title (after_timeframe w)) as [df2 | e2] eqn:Ha.
    + rewrite (collect_answered _ _ _ _ _ _ Hb Ha). cbn.
      destruct (rebind title df1 (before_values s)) as [b |].
      * destruct (rebind title df2 (after_values s)) as [a |].
        -- destruct (window_stats title df1) as [[b_avg b_max] b_min].
           destruct (window_stats title df2) as [[a_avg a_max] a_min].
           cbn. eexists. split; [now rewrite <- app_assoc |].
           split; [eexists; reflexivity | reflexivity].
        -- cbn. eexists. split; [reflexivity | now right].
      * cbn. eexists. split; [reflexivity | now right].
    + rewrite (collect_after_raises _ _ _ _ _ _ Hb Ha). cbn.
      eexists. split; [reflexivity | now right].
  - rewrite (collect_before_raises _ _ _ _ _ Hb). cbn.
    eexists. split; [reflexivity | now left].
Qed.

(** What the loop costs and how its trace ends, when it starts with as
    many passes to make as the budget leaves. *)
Lemma retry_loop_effort (todo : nat) :
  forall (attempt : Z) (s : State),
    Z.of_nat todo = (retries - attempt)%Z ->
    exists tr,
      trace (snd (retry_loop' todo attempt s)) = trace s ++ tr
      /\ (provider_calls tr <= 2 * todo)%nat
      /\ (naps tr <= todo)%nat
      /\ (backoffs tr <= todo - 1)%nat
      /\ warnings tr = backoffs tr
      /\ sleeping tr = (12 * Z.of_nat (naps tr) + 20 * Z.of_nat (backoffs tr))%Z
      /\ match fst (retry_loop' todo attempt s) with
         | Returned (Some r) =>
             if collection_successful r
             then last_event tr
                  = Log INFO ("Successfully collected data for: " ++ title)
             else backoffs tr = (todo - 1)%nat
                  /\ (todo <= provider_calls tr)%nat
                  /\ exists e,
                       r = failure now title ban_date_str e
                       /\ last_event tr
                          = Log ERROR ("All attempts failed for " ++ title
                                         ++ ": " ++ str e)
         | Returned None => todo = O /\ tr = []
         | Escaped _ => False
         end.
Proof.
  induction todo as [| todo IH]; intros attempt s Hn; cbn [retry_loop].
  - exists []. cbn. rewrite app_nil_r. repeat split; lia.
  - destruct (try_block_shape s) as (tr1 & Ht1 & Hshape).
    destruct (try_block' s) as [[r | e] s1]; cbn [fst snd] in *.
    + destruct Hshape as [(l & ->) ->].
      exists (two_requests title w
                ++ [Log INFO ("Successfully collected data for: " ++ title)]).
      split; [exact Ht1 |]. cbn. repeat split; lia.
    + assert (Hcost : (1 <= provider_calls tr1 <= 2)%nat /\ (naps tr1 <= 1)%nat
                      /\ backoffs tr1 = O /\ warnings tr1 = O
                      /\ sleeping tr1 = (12 * Z.of_nat (naps tr1))%Z).
      { destruct Hshape as [-> | ->]; cbn; repeat split; lia. }
      destruct Hcost as (Hp1 & Hn1 & Hb1 & Hw1 & Hs1).
      destruct (attempt <? retries - 1)%Z eqn:Hlt.
      * apply Z.ltb_lt in Hlt.
        destruct (IH (attempt + 1)%Z (backoff title attempt e s1))
          as (tr2 & Ht2 & Hp2 & Hn2 & Hb2 & Hw2 & Hs2 & Hend); [lia |].
        exists (tr1 ++ [Log WARNING
                         ("Attempt " ++ string_of_Z (attempt + 1) ++ " failed for "
                            ++ title ++ ": " ++ str e ++ ". Retrying...");
                       Sleep 20] ++ tr2).
        split.
        { rewrite Ht2. cbn. rewrite Ht1, <- !app_assoc. reflexivity. }
        rewrite !provider_calls_app, !naps_app, !backoffs_app, !warnings_app,
          !sleeping_app, Hb1, Hw1, Hs1, Hs2.
        cbn [provider_calls naps backoffs warnings sleeping filter is_fetch
               is_sleep is_warning List.length Z.eqb Pos.eqb].
        repeat split; try lia.
        destruct (fst (retry_loop' todo (attempt + 1)%Z (backoff title attempt e s1)))
          as [[r |] | e0]; [| destruct Hend; lia | contradiction].
        destruct (collection_successful r).
        -- rewrite app_assoc. now apply last_event_app.
        -- destruct Hend as (Hbk & Hpc & e' & Hr & Hlast).
           repeat split; try lia.
           exists e'. split; [exact Hr |].
           rewrite app_assoc. now apply last_event_app.
      * apply Z.ltb_ge in Hlt.
        exists (tr1 ++ [Log ERROR ("All attempts failed for " ++ title ++ ": " ++ str e)]).
        split.
        { unfold exhausted, logging, emit, record. cbn. now rewrite Ht1, <- app_assoc. }
        rewrite !provider_calls_app, !naps_app, !backoffs_app, !warnings_app,
          !sleeping_app, Hb1, Hw1, Hs1.
        cbn [provider_calls naps backoffs warnings sleeping filter is_fetch
               is_sleep is_warning List.length fst].
        repeat (split; [lia |]).
        exists e. split; [reflexivity |].
        now apply last_event_app.
Qed.
End Effort.

(** The loop of a call, with its cost and its last event. *)
Lemma call_effort
  (pytrends : Provider) (now title ban_date_str : string) (retries : Z)
  (d : datetime) (w : Windows) :
  strptime ban_date_str = Ok d ->
  windows d = Ok w ->
  exists tr,
    snd (get_trends_data pytrends now title ban_date_str retries) = tr
    /\ (provider_calls tr <= 2 * Z.to_nat retries)%nat
    /\ (naps tr <= Z.to_nat retries)%nat
    /\ (backoffs tr <= Z.to_nat retries - 1)%nat
    /\ warnings tr = backoffs tr
    /\ sleeping tr = (12 * Z.of_nat (naps tr) + 20 * Z.of_nat (backoffs tr))%Z
    /\ match fst (get_trends_data pytrends now title ban_date_str retries) with
       | Returned (Some r) =>
           if collection_successful r
           then last_event tr
                = Log INFO ("Successfully collected data for: " ++ title)
           else backoffs tr = (Z.to_nat retries - 1)%nat
                /\ (Z.to_nat retries <= provider_calls tr)%nat
                /\ exists e,
                     r = failure now title ban_date_str e
                     /\ last_event tr
                        = Log ERROR ("All attempts failed for " ++ title
                                       ++ ": " ++ str e)
       | Returned None => tr = []
       | Escaped _ => False
       end.
Proof.
  intros Hd Hw. rewrite (get_trends_data_loop _ _ _ _ _ _ _ Hd Hw). cbn [fst snd].
  destruct (Z.le_gt_cases 0 retries) as [Hpos | Hneg].
  - destruct (retry_loop_effort pytrends now title ban_date_str retries w
                (Z.to_nat retries) 0%Z initial) as (tr & Ht & Hrest); [lia |].
    cbn [trace initial app] in Ht. rewrite Ht. exists tr. split; [reflexivity |].
    destruct Hrest as (H1 & H2 & H3 & H4 & H5 & H6).
    repeat (split; [assumption |]).
    destruct (fst (retry_loop pytrends now title ban_date_str retries w
                     (Z.to_nat retries) 0 initial)) as [[r |] | e];
      [exact H6 | exact (proj2 H6) | exact H6].
  - replace (Z.to_nat retries) with O by lia. cbn. exists [].
    repeat split; cbn; lia.
Qed.

(** The cost of a call, whatever its inputs and the provider. *)
Lemma call_cost
  (pytrends : Provider) (now title ban_date_str : string) (retries : Z) :
  (provider_calls (snd (get_trends_data pytrends now title ban_date_str retries))
   <= 2 * Z.to_nat retries)%nat
  /\ (naps (snd (get_trends_data pytrends now title ban_date_str retries))
      <= Z.to_nat retries)%nat
  /\ (backoffs (snd (get_trends_data pytrends now title ban_date_str retries))
      <= Z.to_nat retries - 1)%nat
  /\ warnings (snd (get_trends_data pytrends now title ban_date_str retries))
     = backoffs (snd (get_trends_data pytrends now title ban_date_str retries))
  /\ sleeping (snd (get_trends_data pytrends now title ban_date_str retries))
     = (12 * Z.of_nat
               (naps (snd (get_trends_data pytrends now title ban_date_str retries)))
        + 20 * Z.of_nat
                 (backoffs
                    (snd (get_trends_data pytrends now title ban_date_str retries))))%Z
  /\ (sleeping (snd (get_trends_data pytrends now title ban_date_str retries))
      <= 32 * Z.of_nat (Z.to_nat retries))%Z.
Proof.
  destruct (strptime ban_date_str) as [d | e] eqn:Hd.
  - destruct (windows d) as [w | e] eqn:Hw.
    + destruct (call_effort pytrends now title ban_date_str retries d w Hd Hw)
        as (tr & -> & H1 & H2 & H3 & H4 & H5 & _).
      repeat (split; [assumption |]). lia.
    + unfold get_trends_data. rewrite Hd, Hw.
      cbn [snd sleeping provider_calls naps backoffs warnings filter List.length].
      repeat split; lia.
  - unfold get_trends_data. rewrite Hd.
    cbn [snd sleeping provider_calls naps backoffs warnings filter List.length
           is_fetch is_sleep is_warning].
    repeat split; lia.
Qed.

(** However the provider behaves and whatever the inputs, a call with a
    budget of [retries] attempts sends at most [2 * retries] requests, waits
    at most [retries] times 12 seconds and [retries - 1] times 20 seconds
    (one warning line per long wait), and so sleeps no longer than
    [32 * retries] seconds in all. *)
Theorem call_effort_bounded
  (pytrends : Provider) (now title ban_date_str : string) (retries : Z) :
  (provider_calls (snd (get_trends_data pytrends now title ban_date_str retries))
   <= 2 * Z.to_nat retries)%nat
  /\ (naps (snd (get_trends_data pytrends now title ban_date_str retries))
      <= Z.to_nat retries)%nat
  /\ (backoffs (snd (get_trends_data pytrends now title ban_date_str retries))
      <= Z.to_nat retries - 1)%nat
  /\ warnings (snd (get_trends_data pytrends now title ban_date_str retries))
     = backoffs (snd (get_trends_data pytrends now title ban_date_str retries))
  /\ sleeping (snd (get_trends_data pytrends now title ban_date_str retries))
     = (12 * Z.of_nat
               (naps (snd (get_trends_data pytrends now title ban_date_str retries)))
        + 20 * Z.of_nat
                 (backoffs
                    (snd (get_trends_data pytrends now title ban_date_str retries))))%Z
  /\ (sleeping (snd (get_trends_data pytrends now title ban_date_str retries))
      <= 32 * Z.of_nat (Z.to_nat retries))%Z.
Proof. exact (call_cost pytrends now title ban_date_str retries). Qed.

(** A failure record is returned only once the whole budget is spent: the
    call has then waited exactly [retries - 1] times for 20 seconds and sent
    between [retries] and [2 * retries] requests; the record's error text is
    the one of the last line of the log, an error line. *)
Theorem failure_after_whole_budget
  (pytrends : Provider) (now title ban_date_str : string) (retries : Z)
  (r : ComparisonResult) :
  fst (get_trends_data pytrends now title ban_date_str retries) = Returned (Some r) ->
  collection_successful r = false ->
  backoffs (snd (get_trends_data pytrends now title ban_date_str retries))
  = (Z.to_nat retries - 1)%nat
  /\ (Z.to_nat retries
      <= provider_calls (snd (get_trends_data pytrends now title ban_date_str retries))
      <= 2 * Z.to_nat retries)%nat
  /\ exists msg,
       error r = Some msg
       /\ last_event (snd (get_trends_data pytrends now title ban_date_str retries))
          = Log ERROR ("All attempts failed for " ++ title ++ ": " ++ msg).
Proof.
  intros Hres Hflag.
  destruct (strptime ban_date_str) as [d | e] eqn:Hd;
    [| unfold get_trends_data in Hres; rewrite Hd in Hres; discriminate].
  destruct (windows d) as [w | e] eqn:Hw;
    [| unfold get_trends_data in Hres; rewrite Hd, Hw in Hres; discriminate].
  destruct (call_effort pytrends now title ban_date_str retries d w Hd Hw)
    as (tr & -> & H1 & _ & _ & _ & _ & Hend).
  rewrite Hres, Hflag in Hend. destruct Hend as (Hb & Hp & e & -> & Hlast).
  split; [exact Hb |]. split; [lia |].
  exists (str e). split; [reflexivity | exact Hlast].
Qed.

Lemma failure_after_whole_budget_witness :
  fst (get_trends_data throttled a_moment "Example Book" "2022-09-01" 3)
  = Returned (Some throttled_record)
  /\ collection_successful throttled_record = false
  /\ backoffs (snd (get_trends_data throttled a_moment "Example Book" "2022-09-01" 3))
     = (Z.to_nat 3 - 1)%nat
  /\ (Z.to_nat 3
      <= provider_calls
           (snd (get_trends_data throttled a_moment "Example Book" "2022-09-01" 3))
      <= 2 * Z.to_nat 3)%nat
  /\ exists msg,
       error throttled_record = Some msg
       /\ last_event
            (snd (get_trends_data throttled a_moment "Example Book" "2022-09-01" 3))
          = Log ERROR ("All attempts failed for " ++ "Example Book" ++ ": " ++ msg).
Proof.
  assert (Hrun : fst (get_trends_data throttled a_moment "Example Book"
                        "2022-09-01" 3) = Returned (Some throttled_record))
    by reflexivity.
  split; [exact Hrun |]. split; [reflexivity |].
  exact (failure_after_whole_budget throttled a_moment "Example Book"
           "2022-09-01" 3 throttled_record Hrun eq_refl).
Defined.

(** A success record is always announced: the last thing a call that
    returns one does is to write the line "Successfully collected data for:
    <title>" to the log, and every failed attempt before it left exactly one
    warning line and one wait of 20 seconds. *)
Theorem success_is_logged_last
  (pytrends : Provider) (now title ban_date_str : string) (retries : Z)
  (r : ComparisonResult) :
  fst (get_trends_data pytrends now title ban_date_str retries) = Returned (Some r) ->
  collection_successful r = true ->
  last_event (snd (get_trends_data pytrends now title ban_date_str retries))
  = Log INFO ("Successfully collected data for: " ++ title)
  /\ warnings (snd (get_trends_data pytrends now title ban_date_str retries))
     = backoffs (snd (get_trends_data pytrends now title ban_date_str retries))
  /\ (backoffs (snd (get_trends_data pytrends now title ban_date_str retries))
      < Z.to_nat retries)%nat.
Proof.
  intros Hres Hflag.
  destruct (strptime ban_date_str) as [d | e] eqn:Hd;
    [| unfold get_trends_data in Hres; rewrite Hd in Hres; discriminate].
  destruct (windows d) as [w | e] eqn:Hw;
    [| unfold get_trends_data in Hres; rewrite Hd, Hw in Hres; discriminate].
  assert (Hpos : (0 < Z.to_nat retries)%nat).
  { destruct (Z.to_nat retries) eqn:E; [| lia].
    rewrite (get_trends_data_loop _ _ _ _ _ _ _ Hd Hw), E in Hres. discriminate. }
  destruct (call_effort pytrends now title ban_date_str retries d w Hd Hw)
    as (tr & -> & _ & _ & Hb & Hwarn & _ & Hend).
  rewrite Hres, Hflag in Hend.
  split; [exact Hend |]. split; [exact Hwarn | lia].
Qed.

Lemma success_is_logged_last_witness :
  fst (get_trends_data flaky a_moment "Example Book" "2022-09-01" 3)
  = Returned (Some example_record)
  /\ collection_successful example_record = true
  /\ last_event (snd (get_trends_data flaky a_moment "Example Book" "2022-09-01" 3))
     = Log INFO ("Successfully collected data for: " ++ "Example Book")
  /\ warnings (snd (get_trends_data flaky a_moment "Example Book" "2022-09-01" 3))
     = backoffs (snd (get_trends_data flaky a_moment "Example Book" "2022-09-01" 3))
  /\ (backoffs (snd (get_trends_data flaky a_moment "Example Book" "2022-09-01" 3))
      < Z.to_nat 3)%nat.
Proof.
  assert (Hrun : fst (get_trends_data flaky a_moment "Example Book"
                        "2022-09-01" 3) = Returned (Some example_record))
    by reflexivity.
  split; [exact Hrun |]. split; [reflexivity |].
  exact (success_is_logged_last flaky a_moment "Example Book"
           "2022-09-01" 3 example_record Hrun eq_refl).
Defined.

Lemma returned_record_echo
  (pytrends : Provider) (now title ban_date_str : string) (retries : Z)
  (r : ComparisonResult) :
  fst (get_trends_data pytrends now title ban_date_str retries) = Returned (Some r) ->
  book_title r = title /\ ban_date r = ban_date_str /\ data_collected r = now.
Proof.
  intros Hres.
  destruct (returned_record_kind _ _ _ _ _ _ Hres) as [(l & ->) | (e & ->)];
    repeat split.
Qed.

(** Every returned record, success or failure, echoes the title and the
    date text it was called with and carries the clock reading taken at the
    return. *)
Theorem record_echoes_inputs
  (pytrends : Provider) (now title ban_date_str : string) (retries : Z)
  (r : ComparisonResult) :
  fst (get_trends_data pytrends now title ban_date_str retries) = Returned (Some r) ->
  book_title r = title /\ ban_date r = ban_date_str /\ data_collected r = now.
Proof. exact (returned_record_echo pytrends now title ban_date_str retries r). Qed.

Lemma record_echoes_inputs_witness :
  fst (get_trends_data throttled a_moment "Example Book" "2022-09-01" 3)
  = Returned (Some throttled_record)
  /\ book_title throttled_record = "Example Book"%string
  /\ ban_date throttled_record = "2022-09-01"%string
  /\ data_collected throttled_record = a_moment.
Proof.
  assert (Hrun : fst (get_trends_data throttled a_moment "Example Book"
                        "2022-09-01" 3) = Returned (Some throttled_record))
    by reflexivity.
  split; [exact Hrun |].
  exact (record_echoes_inputs throttled a_moment "Example Book"
           "2022-09-01" 3 throttled_record Hrun).
Defined.

(** ** The statistics of a window *)

Lemma fold_maximum_in (l : list float) :
  forall x, In (fold_left Numpy.maximum l x) (x :: l).
Proof.
  induction l as [| y l IH]; intros x; cbn [fold_left]; [now left |].
  destruct (IH (Numpy.maximum x y)) as [H | H].
  - rewrite <- H. unfold Numpy.maximum.
    destruct ((y <=? x)%float || is_nan x); [now left | right; now left].
  - right. now right.
Qed.

Lemma fold_minimum_in (l : list float) :
  forall x, In (fold_left Numpy.minimum l x) (x :: l).
Proof.
  induction l as [| y l IH]; intros x; cbn [fold_left]; [now left |].
  destruct (IH (Numpy.minimum x y)) as [H | H].
  - rewrite <- H. unfold Numpy.minimum.
    destruct ((x <=? y)%float || is_nan x); [now left | right; now left].
  - right. now right.
Qed.

Lemma window_stats_spec (title : string) (df : DataFrame) :
  if has_data title df
  then fst (fst (window_stats title df)) = Numpy.mean (column_values title df)
       /\ In (snd (fst (window_stats title df))) (column_values title df)
       /\ In (snd (window_stats title df)) (column_values title df)
  else window_stats title df = (0%float, 0%float, 0%float).
Proof.
  unfold window_stats. destruct (has_data title df) eqn:Hd; [| reflexivity].
  pose proof (has_data_values title df Hd) as Hne.
  destruct (column_values title df) as [| x l]; [congruence |]. cbn [fst snd].
  split; [reflexivity |]. split; [apply fold_maximum_in | apply fold_minimum_in].
Qed.

(** In an attempt that runs to its end, each window is summarised from the
    answer of that attempt alone: a window answered with data reports the
    mean of its scores and, as maximum and minimum, two of the scores
    themselves; a window answered without data reports 0 three times. *)
Theorem window_summaries
  (pytrends : Provider) (title : string) (w : Windows) (s s' : State)
  (l : Locals) (df1 df2 : DataFrame) :
  pytrends (calls s) title (before_timeframe w) = Ok df1 ->
  pytrends (S (calls s)) title (after_timeframe w) = Ok df2 ->
  collect pytrends title w s = (Ok l, s') ->
  (if has_data title df1
   then before_avg l = Numpy.mean (column_values title df1)
        /\ In (before_max l) (column_values title df1)
        /\ In (before_min l) (column_values title df1)
   else before_avg l = 0%float /\ before_max l = 0%float /\ before_min l = 0%float)
  /\ (if has_data title df2
      then after_avg l = Numpy.mean (column_values title df2)
           /\ In (after_max l) (column_values title df2)
           /\ In (after_min l) (column_values title df2)
      else after_avg l = 0%float /\ after_max l = 0%float /\ after_min l = 0%float).
Proof.
  intros Hb Ha. rewrite (collect_answered _ _ _ _ _ _ Hb Ha). cbn.
  destruct (rebind title df1 (before_values s)) as [b |]; [| discriminate].
  destruct (rebind title df2 (after_values s)) as [a |]; [| discriminate].
  pose proof (window_stats_spec title df1) as H1.
  pose proof (window_stats_spec title df2) as H2.
  destruct (window_stats title df1) as [[b_avg b_max] b_min].
  destruct (window_stats title df2) as [[a_avg a_max] a_min].
  intros [= <- _]. cbn [before_avg before_max before_min after_avg after_max after_min].
  split.
  - destruct (has_data title df1); [exact H1 |].
    injection H1 as -> -> ->. repeat split.
  - destruct (has_data title df2); [exact H2 |].
    injection H2 as -> -> ->. repeat split.
Qed.

Lemma window_summaries_witness :
  exists l s',
    example_book (calls initial) "Example Book"%string
      (before_timeframe example_windows)
    = Ok (frame "Example Book" [10; 20; 30]%float)
    /\ example_book (S (calls initial)) "Example Book"%string
         (after_timeframe example_windows)
       = Ok (frame "Example Book" [40; 50; 60]%float)
    /\ collect example_book "Example Book" example_windows initial = (Ok l, s')
    /\ before_avg l = 20%float /\ In (before_max l) [10; 20; 30]%float
    /\ after_avg l = 50%float /\ In (after_min l) [40; 50; 60]%float.
Proof.
  destruct (collect example_book "Example Book" example_windows initial)
    as [[l | e] s'] eqn:Hc; [| vm_compute in Hc; discriminate].
  exists l, s'. split; [reflexivity |]. split; [reflexivity |].
  split; [reflexivity |].
  destruct (window_summaries example_book "Example Book" example_windows initial
              s' l (frame "Example Book" [10; 20; 30]%float)
              (frame "Example Book" [40; 50; 60]%float) eq_refl eq_refl Hc)
    as [(H1 & H2 & _) (H3 & _ & H4)].
  repeat split; assumption.
Defined.

(** * The batch functions *)

(** ** One call of a batch *)

Lemma windows_overflow (d : datetime) :
  ~ windows_fit d ->
  windows d = Raise (OverflowError "date value out of range").
Proof.
  unfold windows_fit, windows, add_days, MAXORDINAL. intros H.
  destruct (Z.ltb_spec 0 (d + -90)); cbn [andb]; [| reflexivity].
  destruct (Z.leb_spec (d + -90) 3652059); [| reflexivity].
  destruct (Z.ltb_spec 0 (d + -1)); cbn [andb]; [| reflexivity].
  destruct (Z.leb_spec (d + -1) 3652059); [| reflexivity].
  destruct (Z.ltb_spec 0 (d + 1)); cbn [andb]; [| reflexivity].
  destruct (Z.leb_spec (d + 1) 3652059); [| reflexivity].
  destruct (Z.ltb_spec 0 (d + 90)); cbn [andb]; [| reflexivity].
  destruct (Z.leb_spec (d + 90) 3652059); [| reflexivity].
  lia.
Qed.

(** A call with the default budget on a harmless date text. *)
Lemma call_on_harmless
  (pytrends : Provider) (now title date : string) :
  harmless date ->
  (parses date = false
   /\ get_trends_data pytrends now title date 3
      = (Returned None,
         [Log ERROR ("Invalid date format for " ++ title ++ ": " ++ date)]))
  \/ (parses date = true
      /\ exists r,
           fst (get_trends_data pytrends now title date 3) = Returned (Some r)
           /\ book_title r = title /\ ban_date r = date).
Proof.
  unfold harmless, parses. destruct (strptime date) as [d | e] eqn:Hd; intros Hfit.
  - right. split; [reflexivity |].
    pose proof (windows_ok d Hfit) as Hw.
    remember {| before_start := (d - 90)%Z; before_end := (d - 1)%Z;
                after_start := (d + 1)%Z; after_end := (d + 90)%Z |} as w.
    rewrite (get_trends_data_loop _ _ _ _ _ _ _ Hd Hw). cbn [fst].
    destruct (retry_loop_returns pytrends now title date 3 w 3%nat 0%Z initial)
      as (r & s' & Hr & Hkind); [reflexivity | lia |].
    change (Z.to_nat 3) with 3%nat. rewrite Hr. exists r. split; [reflexivity |].
    destruct Hkind as [(l & s0 & s1 & _ & ->) | (e & ->)]; split; reflexivity.
  - left. split; [reflexivity |]. unfold get_trends_data. now rewrite Hd.
Qed.

(** A call on a date whose windows leave the calendar. *)
Lemma call_on_overflow
  (pytrends : Provider) (now title date : string) (retries : Z) (d : datetime) :
  strptime date = Ok d ->
  ~ windows_fit d ->
  get_trends_data pytrends now title date retries
  = (Escaped (OverflowError "date value out of range"), []).
Proof.
  intros Hd Hfit. unfold get_trends_data.
  now rewrite Hd, (windows_overflow d Hfit).
Qed.

(** ** Outputs *)

Lemma csv_writes_app (o1 o2 : list output) :
  csv_writes (o1 ++ o2) = csv_writes o1 ++ csv_writes o2.
Proof.
  induction o1 as [| x o1 IH]; [reflexivity |].
  destruct x; cbn; now rewrite IH.
Qed.

Lemma engine_events_app (o1 o2 : list output) :
  engine_events (o1 ++ o2) = engine_events o1 ++ engine_events o2.
Proof.
  induction o1 as [| x o1 IH]; [reflexivity |].
  destruct x; cbn; now rewrite IH.
Qed.

Lemma csv_writes_engine (tr : list event) : csv_writes (map Engine tr) = [].
Proof. induction tr; [reflexivity | assumption]. Qed.

Lemma engine_events_engine (tr : list event) : engine_events (map Engine tr) = tr.
Proof. induction tr as [| ev tr IH]; [reflexivity | cbn; now rewrite IH]. Qed.

Lemma due_div (n : nat) :
  forall index, due index n = ((index + n) / 10 - index / 10)%nat.
Proof.
  induction n as [| n IH]; intros index; cbn [due].
  - rewrite Nat.add_0_r. lia.
  - rewrite IH. replace (S index + n)%nat with (index + S n)%nat by lia.
    replace (S index) with (index + 1)%nat by lia.
    pose proof (Nat.div_mod_eq (index + 1) 10).
    pose proof (Nat.mod_upper_bound (index + 1) 10 ltac:(discriminate)).
    pose proof (Nat.div_mod_eq index 10).
    pose proof (Nat.mod_upper_bound index 10 ltac:(discriminate)).
    pose proof (Nat.div_mod_eq (index + S n) 10).
    pose proof (Nat.mod_upper_bound (index + S n) 10 ltac:(discriminate)).
    destruct (Nat.eqb_spec ((index + 1) mod 10) 0) as [E | E]; lia.
Qed.

(** ** The loop of [collect_all_books] *)

Section BatchFacts.
Variable pytrends : Provider.
Variable clock : nat -> string.
Variable output_csv : string.
Variable total : nat.

Local Abbreviation process' := (process_books pytrends clock output_csv total).

Lemma process_books_app (pre : list Book) :
  forall (rest : list Book) (index : nat) (b : Batch),
    process' (pre ++ rest) index b
    = match process' pre index b with
      | (None, b1) => process' rest (index + List.length pre)%nat b1
      | (Some e, b1) => (Some e, b1)
      end.
Proof.
  induction pre as [| row pre IH]; intros rest index b.
  - cbn. now rewrite Nat.add_0_r.
  - cbn [app process_books List.length].
    destruct (get_trends_data (later pytrends (requests b)) (clock index)
                (Book_Title row) (Ban_Date row) 3) as [[value | e] tr];
      [| reflexivity].
    rewrite IH. now replace (S index + List.length pre)%nat
                      with (index + S (List.length pre))%nat by lia.
Qed.

(** Rows with harmless dates: the loop runs to its end, adds one record
    per row whose date parses, in the order of the rows, and saves a
    snapshot of the records so far after every tenth row. *)
Lemma process_books_harmless (books : list Book) :
  forall (index : nat) (b : Batch),
    Forall (fun row => harmless (Ban_Date row)) books ->
    exists b' extra snaps,
      process' books index b = (None, b')
      /\ all_results b' = all_results b ++ extra
      /\ map entry_of extra
         = map entry_for (filter (fun row => parses (Ban_Date row)) books)
      /\ csv_writes (shown b') = csv_writes (shown b) ++ snaps
      /\ List.length snaps = due index (List.length books)
      /\ Forall (fun ps => fst ps = temp_path output_csv
                           /\ exists rest, all_results b' = snd ps ++ rest) snaps.
Proof.
  induction books as [| row books IH]; intros index b Hall.
  - exists b, [], []. cbn. rewrite !app_nil_r. repeat split. constructor.
  - inversion Hall as [| ? ? Hrow Hrest]; subst.
    cbn [process_books List.length due filter].
    destruct (call_on_harmless (later pytrends (requests b)) (clock index)
                (Book_Title row) (Ban_Date row) Hrow)
      as [[Hp Hcall] | [Hp (r & Hcall & Ht & Hdt)]]; rewrite Hp.
    + rewrite Hcall.
      destruct ((index + 1) mod 10 =? 0)%nat;
        match goal with
        | |- context [process_books _ _ _ _ _ _ ?b3] =>
            destruct (IH (S index) b3 Hrest)
              as (b' & extra & snaps & Hrun & Hres & Hent & Hcsv & Hlen & Hpre)
        end; rewrite Hrun; cbn [all_results shown] in *.
      * exists b', extra,
          ((temp_path output_csv, all_results b) :: snaps).
        split; [reflexivity |]. split; [exact Hres |]. split; [exact Hent |].
        split.
        { rewrite Hcsv, !csv_writes_app. cbn. rewrite app_nil_r, <- app_assoc.
          reflexivity. }
        split; [cbn; now rewrite Hlen |].
        constructor; [| exact Hpre]. cbn. split; [reflexivity |]. now exists extra.
      * exists b', extra, snaps.
        split; [reflexivity |]. split; [exact Hres |]. split; [exact Hent |].
        split.
        { rewrite Hcsv, !csv_writes_app. cbn. now rewrite app_nil_r. }
        split; [cbn; exact Hlen | exact Hpre].
    + destruct (get_trends_data (later pytrends (requests b)) (clock index)
                  (Book_Title row) (Ban_Date row) 3) as [value tr].
      cbn [fst] in Hcall. subst value.
      destruct ((index + 1) mod 10 =? 0)%nat;
        match goal with
        | |- context [process_books _ _ _ _ _ _ ?b3] =>
            destruct (IH (S index) b3 Hrest)
              as (b' & extra & snaps & Hrun & Hres & Hent & Hcsv & Hlen & Hpre)
        end; rewrite Hrun; cbn [all_results shown requests] in *.
      * exists b', ({| result := r; state := state_of row |} :: extra),
          ((temp_path output_csv,
            all_results b ++ [{| result := r; state := state_of row |}]) :: snaps).
        split; [reflexivity |].
        split; [rewrite Hres, <- app_assoc; reflexivity |].
        split; [cbn; unfold entry_of at 1, entry_for at 1; cbn;
                now rewrite Ht, Hdt, Hent |].
        split.
        { rewrite Hcsv, !csv_writes_app, csv_writes_engine. cbn.
          rewrite app_nil_r, <- app_assoc. reflexivity. }
        split; [cbn; now rewrite Hlen |].
        constructor; [| exact Hpre]. cbn. split; [reflexivity |].
        exists extra. exact Hres.
      * exists b', ({| result := r; state := state_of row |} :: extra), snaps.
        split; [reflexivity |].
        split; [rewrite Hres, <- app_assoc; reflexivity |].
        split; [cbn; unfold entry_of at 1, entry_for at 1; cbn;
                now rewrite Ht, Hdt, Hent |].
        split.
        { rewrite Hcsv, !csv_writes_app, csv_writes_engine. cbn.
          now rewrite app_nil_r. }
        split; [cbn; exact Hlen | exact Hpre].
Qed.

(** Whatever the rows hold, the loop costs at most six requests and 96
    seconds of sleep per row, and the provider's count of requests is the
    number of requests of the calls so far. *)
Lemma process_books_cost (books : list Book) :
  forall (index : nat) (b : Batch),
    exists evs,
      engine_events (shown (snd (process' books index b)))
      = engine_events (shown b) ++ evs
      /\ requests (snd (process' books index b))
         = (requests b + provider_calls evs)%nat
      /\ (provider_calls evs <= 6 * List.length books)%nat
      /\ (sleeping evs <= 96 * Z.of_nat (List.length books))%Z.
Proof.
  induction books as [| row books IH]; intros index b.
  - exists []. cbn. rewrite app_nil_r. repeat split; lia.
  - cbn [process_books].
    pose proof (call_cost (later pytrends (requests b)) (clock index)
                  (Book_Title row) (Ban_Date row) 3) as (Hp & _ & _ & _ & _ & Hs).
    destruct (get_trends_data (later pytrends (requests b)) (clock index)
                (Book_Title row) (Ban_Date row) 3) as [[value | e] tr];
      cbn [snd] in Hp, Hs; change (Z.to_nat 3) with 3%nat in Hp, Hs.
    + match goal with
      | |- context [process_books _ _ _ _ _ _ ?b3] =>
          destruct (IH (S index) b3) as (evs & Hev & Hreq & Hpc & Hsl)
      end.
      exists (tr ++ evs). rewrite Hev, Hreq.
      rewrite provider_calls_app, sleeping_app. cbn [List.length].
      split.
      { destruct value, ((index + 1) mod 10 =? 0)%nat; cbn [shown];
          rewrite ?engine_events_app, engine_events_engine; cbn;
          rewrite ?app_nil_r, <- ?app_assoc; reflexivity. }
      split.
      { destruct value, ((index + 1) mod 10 =? 0)%nat; cbn [requests]; lia. }
      split; lia.
    + exists tr. cbn [snd shown requests List.length].
      rewrite engine_events_app, engine_events_engine.
      repeat split; lia.
Qed.
End BatchFacts.

(** ** [collect_all_books] *)

Lemma collect_all_books_harmless
  (pytrends : Provider) (clock : nat -> string) (books : list Book)
  (output_csv : string) :
  Forall (fun row => harmless (Ban_Date row)) books ->
  exists R snaps,
    csv_writes (snd (collect_all_books pytrends clock books output_csv))
    = snaps ++ [(output_csv, R)]
    /\ map entry_of R
       = map entry_for (filter (fun row => parses (Ban_Date row)) books)
    /\ fst (collect_all_books pytrends clock books output_csv)
       = match R with
         | [] => Aborted (KeyError "collection_successful")
         | _ :: _ => Done R
         end
    /\ List.length snaps = (List.length books / 10)%nat
    /\ Forall (fun ps => fst ps = temp_path output_csv
                         /\ exists rest, R = snd ps ++ rest) snaps.
Proof.
  intros Hall. unfold collect_all_books.
  match goal with
  | |- context [process_books _ _ _ _ _ _ ?b0] =>
      destruct (process_books_harmless pytrends clock output_csv
                  (List.length books) books O b0 Hall)
        as (b' & extra & snaps & Hrun & Hres & Hent & Hcsv & Hlen & Hpre)
  end.
  rewrite Hrun. cbn [all_results shown app] in Hres, Hcsv. subst extra.
  exists (all_results b'), snaps.
  assert (Hw : forall tail,
             csv_writes tail = [] ->
             csv_writes
               ((shown b'
                 ++ [ToCsv output_csv (all_results b');
                     Print (nl ++ "=== COLLECTION COMPLETE ===");
                     Print ("Total books processed: "
                              ++ string_of_Z
                                   (Z.of_nat (List.length (all_results b'))))])
                ++ tail)
             = snaps ++ [(output_csv, all_results b')]).
  { intros tail Htail. rewrite !csv_writes_app, Hcsv, Htail. cbn.
    now rewrite app_nil_r. }
  rewrite due_div in Hlen. cbn in Hlen. rewrite Nat.sub_0_r in Hlen.
  destruct (all_results b') as [| c R] eqn:HR; cbn [fst snd].
  - split; [rewrite <- (app_nil_r (_ ++ [_; _; _])); now apply Hw |].
    repeat split; assumption.
  - split; [now apply Hw |]. repeat split; assumption.
Qed.

(** When no date of the table lets an exception out of its call,
    [collect_all_books] writes to [output_csv], as its last table, one
    record per row whose date parses, in the order of the rows: each carries
    the row's title and date text and, as state, the row's state or
    "Unknown".  Rows whose date does not parse are dropped without a trace in
    the table.  The function returns these records when there is at least
    one, and ends in [KeyError('collection_successful')] when there is
    none. *)
Theorem batch_keeps_parsable_rows
  (pytrends : Provider) (clock : nat -> string) (books : list Book)
  (output_csv : string) :
  Forall (fun row => harmless (Ban_Date row)) books ->
  exists R,
    last (csv_writes (snd (collect_all_books pytrends clock books output_csv)))
      (EmptyString, [])
    = (output_csv, R)
    /\ map entry_of R
       = map entry_for (filter (fun row => parses (Ban_Date row)) books)
    /\ fst (collect_all_books pytrends clock books output_csv)
       = match R with
         | [] => Aborted (KeyError "collection_successful")
         | _ :: _ => Done R
         end.
Proof.
  intros Hall.
  destruct (collect_all_books_harmless pytrends clock books output_csv Hall)
    as (R & snaps & Hcsv & Hent & Hout & _).
  exists R. rewrite Hcsv, last_last. repeat split; assumption.
Qed.

(** In such a run over [n] rows, exactly [n / 10] snapshots are written
    before the final table, all to the path [output_csv] with every ".csv"
    replaced by "_temp.csv", and each snapshot is a prefix of the final
    table. *)
Theorem batch_snapshots
  (pytrends : Provider) (clock : nat -> string) (books : list Book)
  (output_csv : string) :
  Forall (fun row => harmless (Ban_Date row)) books ->
  exists R snaps,
    csv_writes (snd (collect_all_books pytrends clock books output_csv))
    = snaps ++ [(output_csv, R)]
    /\ List.length snaps = (List.length books / 10)%nat
    /\ Forall (fun ps => fst ps = temp_path output_csv
                         /\ exists rest, R = snd ps ++ rest) snaps.
Proof.
  intros Hall.
  destruct (collect_all_books_harmless pytrends clock books output_csv Hall)
    as (R & snaps & Hcsv & _ & _ & Hlen & Hpre).
  exists R, snaps. repeat split; assumption.
Qed.

(** A row whose date parses but whose windows leave the calendar ends the
    batch: the [OverflowError] of its call leaves [collect_all_books], the
    final table is not written, and only the snapshots taken so far (one per
    ten rows before it) exist. *)
Theorem batch_aborts_on_overflow
  (pytrends : Provider) (clock : nat -> string) (pre post : list Book)
  (row : Book) (d : datetime) (output_csv : string) :
  Forall (fun row => harmless (Ban_Date row)) pre ->
  strptime (Ban_Date row) = Ok d ->
  ~ windows_fit d ->
  fst (collect_all_books pytrends clock (pre ++ row :: post) output_csv)
  = Aborted (FromCall (OverflowError "date value out of range"))
  /\ List.length
       (csv_writes
          (snd (collect_all_books pytrends clock (pre ++ row :: post) output_csv)))
     = (List.length pre / 10)%nat
  /\ Forall (fun ps => fst ps = temp_path output_csv)
       (csv_writes
          (snd (collect_all_books pytrends clock (pre ++ row :: post) output_csv))).
Proof.
  intros Hall Hd Hfit. unfold collect_all_books.
  rewrite process_books_app.
  match goal with
  | |- context [process_books _ _ _ _ pre _ ?b0] =>
      destruct (process_books_harmless pytrends clock output_csv
                  (List.length (pre ++ row :: post)) pre O b0 Hall)
        as (b' & extra & snaps & Hrun & Hres & Hent & Hcsv & Hlen & Hpre)
  end.
  rewrite Hrun. cbn [process_books].
  rewrite (call_on_overflow _ _ _ _ 3 d Hd Hfit). cbn [fst snd shown map].
  rewrite app_nil_r, Hcsv. cbn [shown csv_writes app].
  rewrite due_div in Hlen. cbn in Hlen. rewrite Nat.sub_0_r in Hlen.
  split; [reflexivity |]. split; [exact Hlen |].
  eapply Forall_impl; [| exact Hpre]. intros ps [H _]. exact H.
Qed.

Lemma sample_books_harmless :
  Forall (fun row => harmless (Ban_Date row)) sample_books.
Proof.
  constructor; [exact I |]. constructor; [| constructor].
  change (windows_fit 738399%Z). unfold windows_fit, MAXORDINAL. lia.
Qed.

Lemma batch_keeps_parsable_rows_witness :
  Forall (fun row => harmless (Ban_Date row)) sample_books
  /\ exists R,
       last (csv_writes
               (snd (collect_all_books example_book (fun _ => a_moment)
                       sample_books default_output)))
         (EmptyString, [])
       = (default_output, R)
       /\ map entry_of R
          = map entry_for (filter (fun row => parses (Ban_Date row)) sample_books)
       /\ fst (collect_all_books example_book (fun _ => a_moment)
                 sample_books default_output)
          = match R with
            | [] => Aborted (KeyError "collection_successful")
            | _ :: _ => Done R
            end.
Proof.
  split; [exact sample_books_harmless |].
  exact (batch_keeps_parsable_rows example_book (fun _ => a_moment) sample_books
           default_output sample_books_harmless).
Defined.

Lemma batch_snapshots_witness :
  Forall (fun row => harmless (Ban_Date row)) long_table
  /\ exists R snaps,
       csv_writes (snd (collect_all_books example_book (fun _ => a_moment)
                          long_table default_output))
       = snaps ++ [(default_output, R)]
       /\ List.length snaps = (List.length long_table / 10)%nat
       /\ Forall (fun ps => fst ps = temp_path default_output
                            /\ exists rest, R = snd ps ++ rest) snaps.
Proof.
  assert (Hall : Forall (fun row => harmless (Ban_Date row)) long_table).
  { unfold long_table. apply Forall_app. split; [| exact sample_books_harmless].
    repeat (constructor; [exact I |]). constructor. }
  split; [exact Hall |].
  exact (batch_snapshots example_book (fun _ => a_moment) long_table
           default_output Hall).
Defined.

Lemma batch_aborts_on_overflow_witness :
  Forall (fun row => harmless (Ban_Date row)) sample_books
  /\ strptime (Ban_Date last_day_book) = Ok MAXORDINAL
  /\ ~ windows_fit MAXORDINAL
  /\ fst (collect_all_books example_book (fun _ => a_moment)
            (sample_books ++ last_day_book :: sample_books) default_output)
     = Aborted (FromCall (OverflowError "date value out of range")).
Proof.
  assert (Hfit : ~ windows_fit MAXORDINAL)
    by (unfold windows_fit, MAXORDINAL; lia).
  split; [exact sample_books_harmless |]. split; [reflexivity |].
  split; [exact Hfit |].
  exact (proj1 (batch_aborts_on_overflow example_book (fun _ => a_moment)
                  sample_books sample_books last_day_book MAXORDINAL
                  default_output sample_books_harmless eq_refl Hfit)).
Defined.

(** ** Tables without a usable date *)

Lemma process_books_unparsable
  (pytrends : Provider) (clock : nat -> string) (output_csv : string)
  (total : nat) (books : list Book) :
  forall (index : nat) (b : Batch),
    Forall (fun row => parses (Ban_Date row) = false) books ->
    exists b',
      process_books pytrends clock output_csv total books index b = (None, b')
      /\ all_results b' = all_results b
      /\ (all_results b = [] ->
          Forall (fun ps => snd ps = []) (csv_writes (shown b)) ->
          Forall (fun ps => snd ps = []) (csv_writes (shown b')))
      /\ provider_calls (engine_events (shown b'))
         = provider_calls (engine_events (shown b))
      /\ sleeping (engine_events (shown b')) = sleeping (engine_events (shown b)).
Proof.
  induction books as [| row books IH]; intros index b Hall.
  - exists b. repeat split. auto.
  - inversion Hall as [| ? ? Hrow Hrest]; subst.
    cbn [process_books]. unfold parses in Hrow. unfold get_trends_data.
    destruct (strptime (Ban_Date row)) as [d | e]; [discriminate |].
    destruct ((index + 1) mod 10 =? 0)%nat;
      match goal with
      | |- context [process_books _ _ _ _ _ _ ?b3] =>
          destruct (IH (S index) b3 Hrest) as (b' & Hrun & Hres & Hcsv & Hpc & Hsl)
      end; rewrite Hrun; cbn [all_results shown map] in *;
      exists b'; (split; [reflexivity |]); (split; [exact Hres |]);
      rewrite Hpc, Hsl, !engine_events_app, !provider_calls_app, !sleeping_app;
      cbn; (split; [| split; lia]); intros Hnil Hprev; apply Hcsv; try exact Hnil;
      rewrite !csv_writes_app; cbn; rewrite ?app_nil_r;
      try (apply Forall_app; split; [exact Hprev |]; constructor;
           [exact Hnil | constructor]);
      exact Hprev.
Qed.

(** A table none of whose dates parses (an empty table, for one) costs no
    request to the provider and no sleep; every table written, snapshots
    and final table alike, is empty, and the function then ends in
    [KeyError('collection_successful')] instead of returning. *)
Theorem batch_without_records
  (pytrends : Provider) (clock : nat -> string) (books : list Book)
  (output_csv : string) :
  Forall (fun row => parses (Ban_Date row) = false) books ->
  fst (collect_all_books pytrends clock books output_csv)
  = Aborted (KeyError "collection_successful")
  /\ last (csv_writes (snd (collect_all_books pytrends clock books output_csv)))
       (EmptyString, [])
     = (output_csv, [])
  /\ Forall (fun ps => snd ps = [])
       (csv_writes (snd (collect_all_books pytrends clock books output_csv)))
  /\ provider_calls
       (engine_events (snd (collect_all_books pytrends clock books output_csv)))
     = O
  /\ sleeping
       (engine_events (snd (collect_all_books pytrends clock books output_csv)))
     = 0%Z.
Proof.
  intros Hall. unfold collect_all_books.
  match goal with
  | |- context [process_books _ _ _ _ _ _ ?b0] =>
      destruct (process_books_unparsable pytrends clock output_csv
                  (List.length books) books O b0 Hall)
        as (b' & Hrun & Hres & Hcsv & Hpc & Hsl)
  end.
  rewrite Hrun. cbn [all_results shown] in Hres, Hcsv, Hpc, Hsl.
  rewrite Hres. cbn [fst snd].
  rewrite !csv_writes_app, !engine_events_app, provider_calls_app, sleeping_app,
    Hpc, Hsl.
  cbn. split; [reflexivity |]. split; [apply last_last |].
  split; [| split; reflexivity].
  apply Forall_app. split; [| repeat constructor].
  apply Hcsv; [reflexivity | constructor].
Qed.

Lemma batch_without_records_witness :
  Forall (fun row => parses (Ban_Date row) = false) (firstn 1 sample_books)
  /\ fst (collect_all_books example_book (fun _ => a_moment)
            (firstn 1 sample_books) default_output)
     = Aborted (KeyError "collection_successful").
Proof.
  assert (Hall : Forall (fun row => parses (Ban_Date row) = false)
                   (firstn 1 sample_books))
    by (constructor; [reflexivity | constructor]).
  split; [exact Hall |].
  exact (proj1 (batch_without_records example_book (fun _ => a_moment)
                  (firstn 1 sample_books) default_output Hall)).
Defined.

(** ** Cost of a batch *)

(** Whatever the table holds and however the provider behaves, a batch
    over [n] rows sends at most [6 * n] requests and sleeps at most
    [96 * n] seconds. *)
Theorem batch_effort_bounded
  (pytrends : Provider) (clock : nat -> string) (books : list Book)
  (output_csv : string) :
  (provider_calls
     (engine_events (snd (collect_all_books pytrends clock books output_csv)))
   <= 6 * List.length books)%nat
  /\ (sleeping
        (engine_events (snd (collect_all_books pytrends clock books output_csv)))
      <= 96 * Z.of_nat (List.length books))%Z.
Proof.
  unfold collect_all_books.
  match goal with
  | |- context [process_books _ _ _ _ _ _ ?b0] =>
      destruct (process_books_cost pytrends clock output_csv
                  (List.length books) books O b0) as (evs & Hev & _ & Hpc & Hsl);
      destruct (process_books pytrends clock output_csv
                  (List.length books) books O b0) as [[e |] b']
  end; cbn [snd shown engine_events app] in Hev.
  - cbn [snd]. rewrite Hev. split; assumption.
  - destruct (all_results b'); cbn [snd];
      rewrite !engine_events_app, Hev; cbn [engine_events];
      rewrite ?app_nil_r; split; assumption.
Qed.

(** ** The snapshot path *)

Lemma temp_path_unfold (c1 c2 c3 c4 : ascii) (rest : string) :
  temp_path (String c1 (String c2 (String c3 (String c4 rest))))
  = if at_csv c1 c2 c3 c4
    then ("_temp.csv" ++ temp_path rest)%string
    else String c1 (temp_path (String c2 (String c3 (String c4 rest)))).
Proof. reflexivity. Qed.

Lemma count_csv_unfold (c1 c2 c3 c4 : ascii) (rest : string) :
  count_csv (String c1 (String c2 (String c3 (String c4 rest))))
  = if at_csv c1 c2 c3 c4
    then S (count_csv rest)
    else count_csv (String c2 (String c3 (String c4 rest))).
Proof. reflexivity. Qed.

Lemma temp_path_length_upto (n : nat) :
  forall path,
    (String.length path <= n)%nat ->
    String.length (temp_path path) = (String.length path + 5 * count_csv path)%nat
    /\ (count_csv path = O -> temp_path path = path).
Proof.
  induction n as [| n IH]; intros path Hn.
  - destruct path; [split; reflexivity | cbn in Hn; lia].
  - destruct path as [| c1 rest1]; [split; reflexivity |].
    cbn [String.length] in Hn.
    destruct (IH rest1 ltac:(lia)) as [Hlen1 Hsame1].
    destruct rest1 as [| c2 [| c3 [| c4 rest]]];
      try (split; [reflexivity | intros _; reflexivity]).
    rewrite temp_path_unfold, count_csv_unfold. destruct (at_csv c1 c2 c3 c4).
    + cbn [String.length] in Hn.
      destruct (IH rest ltac:(lia)) as [Hlen Hsame].
      split; [| discriminate].
      cbn [append String.length]. rewrite Hlen. lia.
    + split.
      * cbn [String.length] in *. rewrite Hlen1. lia.
      * intros H0. now rewrite (Hsame1 H0).
Qed.

(** The snapshot path is longer than [output_csv] by five characters per
    occurrence of ".csv"; so the two paths are the same path exactly when
    [output_csv] contains no ".csv", and the snapshots are then written over
    the file of the final table. *)
Theorem temp_path_same_iff (output_csv : string) :
  String.length (temp_path output_csv)
  = (String.length output_csv + 5 * count_csv output_csv)%nat
  /\ (temp_path output_csv = output_csv <-> count_csv output_csv = O).
Proof.
  destruct (temp_path_length_upto (String.length output_csv) output_csv (le_n _))
    as [Hlen Hsame].
  split; [exact Hlen |]. split; [| exact Hsame].
  intros E. rewrite E in Hlen. lia.
Qed.

Lemma temp_path_examples :
  temp_path default_output = "data/raw/google_trends_complete_temp.csv"%string
  /\ temp_path "results.tsv" = "results.tsv"%string
  /\ temp_path "run.csv/out.csv" = "run_temp.csv/out_temp.csv"%string.
Proof. repeat split; reflexivity. Qed.

(** ** [test_collection] *)

Lemma call_on_valid
  (pytrends : Provider) (now title date : string) (d : datetime) :
  strptime date = Ok d ->
  windows_fit d ->
  exists r tr,
    get_trends_data pytrends now title date 3 = (Returned (Some r), tr)
    /\ book_title r = title /\ ban_date r = date
    /\ (provider_calls tr <= 6)%nat.
Proof.
  intros Hd Hfit.
  assert (Hharmless : harmless date) by (unfold harmless; now rewrite Hd).
  pose proof (call_cost pytrends now title date 3) as (Hp & _).
  destruct (call_on_harmless pytrends now title date Hharmless)
    as [[Hp0 _] | [_ (r & Hcall & Ht & Hdt)]].
  - unfold parses in Hp0. rewrite Hd in Hp0. discriminate.
  - destruct (get_trends_data pytrends now title date 3) as [value tr].
    cbn [fst snd] in *. subst value. exists r, tr.
    change (Z.to_nat 3) with 3%nat in Hp. repeat split; assumption.
Qed.

(** Whatever the provider does, [test_collection] ends without an
    exception after at most 18 requests, and the table it writes to
    "../data/raw/test_results.csv" has exactly three records, none of them
    [None]: one for each of the three test books, in their order, each with
    the title and date of its book. *)
Theorem test_collection_three_records
  (pytrends : Provider) (clock : nat -> string) :
  exists r1 r2 r3 before,
    test_collection pytrends clock
    = (None,
       before
       ++ [Mkdir "../data/raw";
           TestCsv "../data/raw/test_results.csv" [Some r1; Some r2; Some r3];
           Print "Test results saved to ../data/raw/test_results.csv"])
    /\ map (fun r => (book_title r, ban_date r)) [r1; r2; r3] = test_books
    /\ (provider_calls
          (engine_events (snd (test_collection pytrends clock))) <= 18)%nat.
Proof.
  unfold test_collection, test_books. cbn [test_loop].
  destruct (call_on_valid (later pytrends 0) (clock 0%nat) "Gender Queer"
              "2022-09-01" 738399%Z eq_refl
              ltac:(unfold windows_fit, MAXORDINAL; lia))
    as (r1 & tr1 & -> & Ht1 & Hd1 & Hp1).
  destruct (call_on_valid (later pytrends (0 + provider_calls tr1))
              (clock 1%nat) "All Boys Aren't Blue"
              "2022-10-15" 738443%Z eq_refl
              ltac:(unfold windows_fit, MAXORDINAL; lia))
    as (r2 & tr2 & -> & Ht2 & Hd2 & Hp2).
  destruct (call_on_valid
              (later pytrends (0 + provider_calls tr1 + provider_calls tr2))
              (clock 2%nat) "The Bluest Eye"
              "2022-08-20" 738387%Z eq_refl
              ltac:(unfold windows_fit, MAXORDINAL; lia))
    as (r3 & tr3 & -> & Ht3 & Hd3 & Hp3).
  exists r1, r2, r3. eexists. split; [reflexivity |].
  split; [cbn; now rewrite Ht1, Hd1, Ht2, Hd2, Ht3, Hd3 |].
  cbn [snd]. rewrite !engine_events_app, !engine_events_engine.
  cbn [engine_events app]. rewrite !app_nil_r, !provider_calls_app. lia.
Qed.

(** ** The pooled values *)

Section Pooled.
Variable pytrends : Provider.
Variable now : string.
Variables title ban_date_str : string.
Variable retries : Z.
Variable w : Windows.

Lemma scores_of_later (timeframe : string) (upto upto' : nat) (v : list float) :
  (upto <= upto')%nat ->
  scores_of pytrends title timeframe upto v ->
  scores_of pytrends title timeframe upto' v.
Proof.
  intros Hle (n & df & Hn & Hdf & Hdata & ->).
  exists n, df. repeat split; try assumption. lia.
Qed.

Lemma scores_of_nonempty (timeframe : string) (upto : nat) (v : list float) :
  scores_of pytrends title timeframe upto v -> v <> [].
Proof.
  intros (n & df & _ & _ & Hdata & ->). now apply has_data_values.
Qed.

(** An assignment from the answer to request [n] keeps a variable bound to
    the scores of an answer. *)
Lemma rebind_answers (timeframe : string) (n upto : nat) (df : DataFrame)
  (old : option (list float)) :
  pytrends n title timeframe = Ok df ->
  (n < upto)%nat ->
  (forall v, old = Some v -> scores_of pytrends title timeframe n v) ->
  forall v, rebind title df old = Some v ->
            scores_of pytrends title timeframe upto v.
Proof.
  unfold rebind. intros Hdf Hn Hold v.
  destruct (has_data title df) eqn:Hdata.
  - intros [= <-]. exists n, df. repeat split; assumption.
  - intros Hv. apply (scores_of_later timeframe n upto); [lia |].
    now apply Hold.
Qed.

(** One pass of [collect] keeps the variables bound to answers, and when it
    runs to its end both variables are bound and it has pooled their two
    lists, in this order. *)
Lemma collect_pooled (s : State) :
  bound_to_answers pytrends title w s ->
  bound_to_answers pytrends title w (snd (collect pytrends title w s))
  /\ forall l,
       fst (collect pytrends title w s) = Ok l ->
       exists b a,
         before_values (snd (collect pytrends title w s)) = Some b
         /\ after_values (snd (collect pytrends title w s)) = Some a
         /\ all_values l = b ++ a
         /\ l_volatility l = volatility_of (b ++ a).
Proof.
  intros [Hb Ha].
  destruct (pytrends (calls s) title (before_timeframe w)) as [df1 | e1] eqn:H1.
  - assert (Hb' : forall v, rebind title df1 (before_values s) = Some v ->
                    scores_of pytrends title (before_timeframe w)
                      (S (S (calls s))) v)
      by (apply (rebind_answers _ (calls s)); [exact H1 | lia | exact Hb]).
    destruct (pytrends (S (calls s)) title (after_timeframe w))
      as [df2 | e2] eqn:H2.
    + assert (Ha' : forall v, rebind title df2 (after_values s) = Some v ->
                      scores_of pytrends title (after_timeframe w)
                        (S (S (calls s))) v).
      { apply (rebind_answers _ (S (calls s))); [exact H2 | lia |].
        intros v Hv. apply (scores_of_later _ (calls s)); [lia |].
        now apply Ha. }
      rewrite (collect_answered _ _ _ _ _ _ H1 H2). cbn [fst snd].
      split; [split; assumption |].
      cbn [before_values after_values].
      destruct (rebind title df1 (before_values s)) as [b |]; [| discriminate].
      destruct (rebind title df2 (after_values s)) as [a |]; [| discriminate].
      destruct (window_stats title df1) as [[b_avg b_max] b_min].
      destruct (window_stats title df2) as [[a_avg a_max] a_min].
      intros l [= <-]. exists b, a. repeat split.
    + rewrite (collect_after_raises _ _ _ _ _ _ H1 H2). cbn [fst snd].
      split; [| discriminate].
      split; cbn [before_values after_values calls]; [exact Hb' |].
      intros v Hv. apply (scores_of_later _ (calls s)); [lia |].
      now apply Ha.
  - rewrite (collect_before_raises _ _ _ _ _ H1). cbn [fst snd].
    split; [| discriminate].
    split; cbn [before_values after_values calls asked]; intros v Hv;
      apply (scores_of_later _ (calls s)); try lia; [now apply Hb | now apply Ha].
Qed.

(** The state in which the loop returns a success record: the two
    variables are bound to scores of answers of this call, and the record
    holds line 137's value for their two lists pooled. *)
Lemma retry_loop_pooled (todo : nat) :
  forall (attempt : Z) (s s' : State) (r : ComparisonResult),
    bound_to_answers pytrends title w s ->
    retry_loop pytrends now title ban_date_str retries w todo attempt s
    = (Returned (Some r), s') ->
    collection_successful r = true ->
    exists b a,
      before_values s' = Some b /\ after_values s' = Some a
      /\ scores_of pytrends title (before_timeframe w) (calls s') b
      /\ scores_of pytrends title (after_timeframe w) (calls s') a
      /\ volatility r = Some (Numpy.round2 (volatility_of (b ++ a))).
Proof.
  induction todo as [| todo IH]; intros attempt s s' r Hinv; cbn [retry_loop];
    [discriminate |].
  rewrite try_block_collect.
  destruct (collect_pooled s Hinv) as [Hinv' Hok].
  destruct (collect pytrends title w s) as [[l | e] s1]; cbn [fst snd] in *.
  - intros [= <- <-] _.
    destruct (Hok l eq_refl) as (b & a & Hb & Ha & _ & Hvol).
    destruct Hinv' as [Hsb Hsa].
    exists b, a. cbn [record before_values after_values calls].
    split; [exact Hb |]. split; [exact Ha |].
    split; [now apply Hsb |]. split; [now apply Hsa |].
    cbn [success volatility]. now rewrite Hvol.
  - destruct (attempt <? retries - 1)%Z.
    + apply IH. exact Hinv'.
    + intros [= <- _]. discriminate.
Qed.
End Pooled.

(** The guard of line 137 never fails.  When a call returns a success
    record, the loop that the call runs has ended in a state where
    [before_values] and [after_values] are both bound; each holds the
    column of scores of an answer with data that the provider gives, for
    this subject and the timeframe of that window, at a request number
    below the number of requests the call has made, so each holds at least
    one score; the list that line 136 pools from the two is not empty, the
    guard of line 137 takes the standard deviation of it, and the
    volatility of the record is that value rounded, never the fallback
    value 0 of an empty list. *)
Theorem volatility_guard_never_fails
  (pytrends : Provider) (now title ban_date_str : string) (retries : Z)
  (r : ComparisonResult) :
  fst (get_trends_data pytrends now title ban_date_str retries) = Returned (Some r) ->
  collection_successful r = true ->
  exists d w s' b a,
    strptime ban_date_str = Ok d
    /\ windows d = Ok w
    /\ retry_loop pytrends now title ban_date_str retries w
         (Z.to_nat retries) 0%Z initial = (Returned (Some r), s')
    /\ before_values s' = Some b /\ after_values s' = Some a
    /\ scores_of pytrends title (before_timeframe w) (calls s') b
    /\ scores_of pytrends title (after_timeframe w) (calls s') a
    /\ b <> [] /\ a <> [] /\ b ++ a <> []
    /\ volatility_of (b ++ a) = Numpy.std (b ++ a)
    /\ volatility r = Some (Numpy.round2 (Numpy.std (b ++ a))).
Proof.
  intros Hres Hflag.
  destruct (strptime ban_date_str) as [d | e] eqn:Hd;
    [| unfold get_trends_data in Hres; rewrite Hd in Hres; discriminate].
  destruct (windows d) as [w | e] eqn:Hw;
    [| unfold get_trends_data in Hres; rewrite Hd, Hw in Hres; discriminate].
  rewrite (get_trends_data_loop _ _ _ _ _ _ _ Hd Hw) in Hres. cbn [fst] in Hres.
  destruct (retry_loop pytrends now title ban_date_str retries w
              (Z.to_nat retries) 0 initial) as [res s'] eqn:Hloop.
  cbn [fst] in Hres. subst res.
  assert (Hinit : bound_to_answers pytrends title w initial)
    by (split; intros v; discriminate).
  destruct (retry_loop_pooled pytrends now title ban_date_str retries w _ _ _ _ _
              Hinit Hloop Hflag) as (b & a & Hb & Ha & Hsb & Hsa & Hvol).
  pose proof (scores_of_nonempty pytrends title _ _ _ Hsb) as Hbne.
  pose proof (scores_of_nonempty pytrends title _ _ _ Hsa) as Hane.
  assert (Hguard : volatility_of (b ++ a) = Numpy.std (b ++ a))
    by (unfold volatility_of; destruct b as [| x b]; [congruence | reflexivity]).
  exists d, w, s', b, a.
  repeat (split; [assumption || reflexivity |]).
  split; [destruct b; [congruence | discriminate] |].
  split; [exact Hguard |].
  rewrite Hvol, Hguard. reflexivity.
Qed.

Lemma volatility_guard_never_fails_witness :
  fst (get_trends_data flaky a_moment "Example Book" "2022-09-01" 3)
  = Returned (Some example_record)
  /\ collection_successful example_record = true
  /\ exists d w s' b a,
       strptime "2022-09-01" = Ok d
       /\ windows d = Ok w
       /\ retry_loop flaky a_moment "Example Book" "2022-09-01" 3 w
            (Z.to_nat 3) 0%Z initial = (Returned (Some example_record), s')
       /\ before_values s' = Some b /\ after_values s' = Some a
       /\ scores_of flaky "Example Book" (before_timeframe w) (calls s') b
       /\ scores_of flaky "Example Book" (after_timeframe w) (calls s') a
       /\ b <> [] /\ a <> [] /\ b ++ a <> []
       /\ volatility_of (b ++ a) = Numpy.std (b ++ a)
       /\ volatility example_record
          = Some (Numpy.round2 (Numpy.std (b ++ a))).
Proof.
  assert (Hrun : fst (get_trends_data flaky a_moment "Example Book"
                        "2022-09-01" 3) = Returned (Some example_record))
    by reflexivity.
  split; [exact Hrun |]. split; [reflexivity |].
  exact (volatility_guard_never_fails flaky a_moment "Example Book"
           "2022-09-01" 3 example_record Hrun eq_refl).
Defined.

(** ** The calendar: dates and their texts *)

Section Calendar.
Local Open Scope Z_scope.

Lemma dby_parts (q400 q100 q4 q1 : Z) :
  0 <= q400 -> 0 <= q100 <= 3 -> 0 <= q4 <= 24 -> 0 <= q1 <= 3 ->
  days_before_year (year_of_parts q400 q100 q4 q1)
  = 146097 * q400 + 36524 * q100 + 1461 * q4 + 365 * q1.
Proof.
  intros H400 H100 H4 H1. unfold days_before_year, year_of_parts. cbv zeta.
  Z.div_mod_to_equations. lia.
Qed.

Lemma leap_parts (q400 q100 q4 q1 : Z) :
  0 <= q400 -> 0 <= q100 <= 3 -> 0 <= q4 <= 24 -> 0 <= q1 <= 3 ->
  is_leap (year_of_parts q400 q100 q4 q1)
  = (q1 =? 3) && (negb (q4 =? 24) || (q100 =? 3)).
Proof.
  intros H400 H100 H4 H1. unfold is_leap, year_of_parts.
  destruct (Z.eqb_spec q1 3), (Z.eqb_spec q4 24), (Z.eqb_spec q100 3);
    cbn [andb orb negb];
    repeat match goal with
           | |- context [(?a =? 0)] => destruct (Z.eqb_spec a 0)
           end; cbn [andb orb negb]; try reflexivity;
    Z.div_mod_to_equations; lia.
Qed.

Ltac eval_closed :=
  repeat match goal with
         | |- context [nth ?a ?l ?d] =>
             let v := eval vm_compute in (nth a l d) in
             match v with
             | Z0 => idtac
             | Zpos _ => idtac
             end;
             change (nth a l d) with v
         | |- context [(?a <? ?b)] =>
             let v := eval vm_compute in (a <? b) in
             match v with
             | true => change (a <? b) with true
             | false => change (a <? b) with false
             end
         | |- context [(?a =? ?b)] =>
             let v := eval vm_compute in (a =? b) in
             match v with
             | true => change (a =? b) with true
             | false => change (a =? b) with false
             end
         | |- context [(?a <=? ?b)] =>
             let v := eval vm_compute in (a <=? b) in
             match v with
             | true => change (a <=? b) with true
             | false => change (a <=? b) with false
             end
         end;
  cbv beta iota; cbn [andb orb negb].

Lemma month_day_spec (leap : bool) (n : Z) :
  0 <= n < 365 ->
  1 <= fst (month_day leap n) <= 12
  /\ 1 <= snd (month_day leap n) <= month_length leap (fst (month_day leap n))
  /\ nth (Z.to_nat (fst (month_day leap n))) DAYS_BEFORE_MONTH 0
     + (if (2 <? fst (month_day leap n)) && leap then 1 else 0)
     + snd (month_day leap n) = n + 1.
Proof.
  intros Hn. unfold month_day, month_length. cbv zeta.
  rewrite Z.shiftr_div_pow2 by lia. change (2 ^ 5) with 32.
  pose proof (Z.div_mod (n + 50) 32 ltac:(lia)) as Hdiv.
  pose proof (Z.mod_pos_bound (n + 50) 32 ltac:(lia)) as Hmod.
  remember ((n + 50) / 32) as month eqn:Hm. clear Hm.
  assert (Hcases : month = 1 \/ month = 2 \/ month = 3 \/ month = 4
                   \/ month = 5 \/ month = 6 \/ month = 7 \/ month = 8
                   \/ month = 9 \/ month = 10 \/ month = 11 \/ month = 12)
    by lia.
  repeat (destruct Hcases as [-> | Hcases]); try subst month;
    destruct leap; eval_closed;
    match goal with
    | |- context [n <? ?c] => destruct (Z.ltb_spec n c)
    end; cbn [fst snd]; eval_closed; lia.
Qed.

Lemma ord2ymd_parts (ordinal : Z) :
  let n := ordinal - 1 in
  let n400 := n / 146097 in let n := n mod 146097 in
  let n100 := n / 36524 in let n := n mod 36524 in
  let n4 := n / 1461 in let n := n mod 1461 in
  let n1 := n / 365 in let n := n mod 365 in
  let year := n400 * 400 + 1 + n100 * 100 + n4 * 4 + n1 in
  let leapyear := (n1 =? 3) && (negb (n4 =? 24) || (n100 =? 3)) in
  ord2ymd ordinal =
    if (n1 =? 4) || (n100 =? 4) then (year - 1, 12, 31)
    else (year, fst (month_day leapyear n), snd (month_day leapyear n)).
Proof.
  cbv zeta. unfold ord2ymd, month_day. cbv zeta.
  destruct (_ || _); [reflexivity |].
  destruct (_ <? _); reflexivity.
Qed.

Lemma days_in_month_length (year month : Z) :
  days_in_month year month = month_length (is_leap year) month.
Proof. reflexivity. Qed.

Lemma ord2ymd_spec (ordinal : Z) :
  1 <= ordinal <= MAXORDINAL ->
  exists year month day,
    ord2ymd ordinal = (year, month, day)
    /\ 1 <= year <= 9999
    /\ 1 <= month <= 12
    /\ 1 <= day <= days_in_month year month
    /\ ymd2ord year month day = ordinal.
Proof.
  unfold MAXORDINAL. intros Hrange.
  rewrite ord2ymd_parts. cbv zeta.
  pose proof (Z.div_mod (ordinal - 1) 146097 ltac:(lia)) as E400.
  pose proof (Z.mod_pos_bound (ordinal - 1) 146097 ltac:(lia)) as B400.
  remember ((ordinal - 1) / 146097) as n400 eqn:H400.
  remember ((ordinal - 1) mod 146097) as r400 eqn:Hr400.
  pose proof (Z.div_mod r400 36524 ltac:(lia)) as E100.
  pose proof (Z.mod_pos_bound r400 36524 ltac:(lia)) as B100.
  remember (r400 / 36524) as n100 eqn:H100.
  remember (r400 mod 36524) as r100 eqn:Hr100.
  pose proof (Z.div_mod r100 1461 ltac:(lia)) as E4.
  pose proof (Z.mod_pos_bound r100 1461 ltac:(lia)) as B4.
  remember (r100 / 1461) as n4 eqn:H4.
  remember (r100 mod 1461) as r4 eqn:Hr4.
  pose proof (Z.div_mod r4 365 ltac:(lia)) as E1.
  pose proof (Z.mod_pos_bound r4 365 ltac:(lia)) as B1.
  remember (r4 / 365) as n1 eqn:H1.
  remember (r4 mod 365) as n eqn:Hn.
  clear H400 Hr400 H100 Hr100 H4 Hr4 H1 Hn.
  assert (0 <= n400 <= 24) by lia.
  assert (0 <= n100 <= 4) by lia.
  assert (0 <= n4 <= 24) by lia.
  assert (0 <= n1 <= 4) by lia.
  destruct (Z.eqb_spec n100 4) as [-> | N100].
  - (* the last day of a 400-year cycle *)
    rewrite orb_true_r.
    assert (n4 = 0) as -> by lia. assert (n1 = 0) as -> by lia.
    assert (n = 0) as -> by lia.
    exists (n400 * 400 + 1 + 4 * 100 + 0 * 4 + 0 - 1), 12, 31.
    split; [reflexivity |].
    replace (n400 * 400 + 1 + 4 * 100 + 0 * 4 + 0 - 1)
      with (year_of_parts n400 3 24 3) by (unfold year_of_parts; lia).
    assert (Hleap : is_leap (year_of_parts n400 3 24 3) = true)
      by (rewrite leap_parts by lia; reflexivity).
    unfold ymd2ord, days_before_month, days_in_month.
    rewrite Hleap, dby_parts by lia. unfold year_of_parts. eval_closed.
    repeat (split; [lia |]). lia.
  - rewrite orb_false_r.
    destruct (Z.eqb_spec n1 4) as [-> | N1].
    + (* the last day of a leap year *)
      assert (n = 0) as -> by lia.
      assert (n4 <> 24) by lia.
      exists (n400 * 400 + 1 + n100 * 100 + n4 * 4 + 4 - 1), 12, 31.
      split; [reflexivity |].
      replace (n400 * 400 + 1 + n100 * 100 + n4 * 4 + 4 - 1)
        with (year_of_parts n400 n100 n4 3) by (unfold year_of_parts; lia).
      assert (Hleap : is_leap (year_of_parts n400 n100 n4 3) = true).
      { rewrite leap_parts by lia.
        destruct (Z.eqb_spec n4 24); [lia |]. reflexivity. }
      unfold ymd2ord, days_before_month, days_in_month.
      rewrite Hleap, dby_parts by lia. unfold year_of_parts. eval_closed.
      repeat (split; [lia |]). lia.
    + replace (n400 * 400 + 1 + n100 * 100 + n4 * 4 + n1)
        with (year_of_parts n400 n100 n4 n1) by (unfold year_of_parts; lia).
      rewrite <- (leap_parts n400 n100 n4 n1) by lia.
      assert (Hn : 0 <= n < 365) by lia.
      destruct (month_day_spec (is_leap (year_of_parts n400 n100 n4 n1)) n Hn)
        as (Hmonth & Hday & Hsum).
      eexists _, _, _. split; [reflexivity |].
      rewrite days_in_month_length.
      unfold ymd2ord, days_before_month.
      rewrite dby_parts by lia.
      split; [unfold year_of_parts; lia |].
      split; [exact Hmonth |].
      split; [exact Hday |]. lia.
Qed.

Lemma digit_char_code (n : Z) :
  Z.of_nat (nat_of_ascii (digit_char n)) = 48 + n mod 10.
Proof.
  unfold digit_char.
  pose proof (Z.mod_pos_bound n 10 ltac:(lia)).
  rewrite nat_ascii_embedding by lia. lia.
Qed.

Lemma digit_value_char (n : Z) : digit_value (digit_char n) = Some (n mod 10).
Proof.
  unfold digit_value. cbv zeta. rewrite digit_char_code.
  pose proof (Z.mod_pos_bound n 10 ltac:(lia)).
  destruct (Z.leb_spec 48 (48 + n mod 10)); [| lia].
  destruct (Z.leb_spec (48 + n mod 10) 57); [| lia].
  cbn [andb]. f_equal. lia.
Qed.

Lemma digit_char_not_hyphen (n : Z) : Ascii.eqb (digit_char n) "-" = false.
Proof.
  apply Ascii.eqb_neq. intros E.
  pose proof (digit_char_code n) as Hcode. rewrite E in Hcode.
  pose proof (Z.mod_pos_bound n 10 ltac:(lia)).
  change (Z.of_nat (nat_of_ascii "-")) with 45 in Hcode. lia.
Qed.

Lemma number_1_2_pad2 (blank : bool) (n : Z) :
  0 <= n <= 99 -> number_1_2 blank (pad2 n) = Some n.
Proof.
  intros Hn. unfold pad2, number_1_2. rewrite !digit_value_char.
  f_equal. Z.div_mod_to_equations. lia.
Qed.

Lemma year_4_pad4 (n : Z) :
  0 <= n <= 9999 ->
  year_4 (digit_char (n / 1000)) (digit_char (n / 100))
         (digit_char (n / 10)) (digit_char n) = Some n.
Proof.
  intros Hn. unfold year_4. rewrite !digit_value_char.
  f_equal. Z.div_mod_to_equations. lia.
Qed.

Lemma split_hyphen_pad2 (n : Z) (rest : string) :
  split_hyphen (pad2 n ++ String "-" rest) = Some (pad2 n, rest).
Proof.
  unfold pad2. cbn [append split_hyphen].
  rewrite !digit_char_not_hyphen. reflexivity.
Qed.

Lemma strptime_strftime (d : datetime) :
  1 <= d <= MAXORDINAL -> strptime (strftime d) = Ok d.
Proof.
  intros Hd.
  destruct (ord2ymd_spec d Hd)
    as (year & month & day & E & Hy & Hm & Hday & Hord).
  unfold strftime. rewrite E.
  assert (Hlen : 28 <= days_in_month year month <= 31).
  { unfold days_in_month.
    destruct (month =? 2); [destruct (is_leap year); lia |].
    destruct (_ || _); lia. }
  unfold pad4 at 1. cbn [append]. unfold strptime.
  change (pad2 year) with
    (String (digit_char (year / 10)) (String (digit_char year) EmptyString)).
  cbn [append]. rewrite year_4_pad4 by lia.
  change (Ascii.eqb "-" "-") with true.
  rewrite split_hyphen_pad2, !number_1_2_pad2 by lia.
  destruct (Z.leb_spec 1 month); [| lia].
  destruct (Z.leb_spec month 12); [| lia].
  destruct (Z.leb_spec 1 day); [| lia].
  destruct (Z.leb_spec day 31); [| lia].
  cbn [andb].
  destruct (Z.ltb_spec year 1); [lia |].
  destruct (Z.leb_spec day (days_in_month year month)); [| lia].
  rewrite Hord. reflexivity.
Qed.

Lemma strftime_length (d : datetime) : String.length (strftime d) = 10%nat.
Proof.
  unfold strftime. destruct (ord2ymd d) as [[year month] day]. reflexivity.
Qed.
End Calendar.

Lemma windows_bounds (d : datetime) (w : Windows) :
  windows d = Ok w ->
  (1 <= d - 90 /\ d + 90 <= MAXORDINAL)%Z
  /\ w = {| before_start := (d - 90)%Z; before_end := (d - 1)%Z;
            after_start := (d + 1)%Z; after_end := (d + 90)%Z |}.
Proof.
  unfold windows, add_days. cbv zeta.
  replace (d + -90)%Z with (d - 90)%Z by lia.
  replace (d + -1)%Z with (d - 1)%Z by lia.
  destruct (Z.ltb_spec 0 (d - 90)); cbn [andb]; [| discriminate].
  destruct (Z.leb_spec (d - 90) MAXORDINAL); [| discriminate].
  destruct ((0 <? d - 1)%Z && (d - 1 <=? MAXORDINAL)%Z); [| discriminate].
  destruct ((0 <? d + 1)%Z && (d + 1 <=? MAXORDINAL)%Z); [| discriminate].
  destruct (Z.ltb_spec 0 (d + 90)); cbn [andb]; [| discriminate].
  destruct (Z.leb_spec (d + 90) MAXORDINAL); [| discriminate].
  intros [= <-]. split; [lia | reflexivity].
Qed.

(** Lines 79-86: the two timeframes sent to the provider spell the window
    bounds.  When the windows of a date exist and start in a year of four
    digits, each timeframe is two texts of ten characters joined by a space,
    and each text, read back with the format of the input date, is the day
    it was written from: 90 days and 1 day before the date, 1 day and 90
    days after it. *)
Theorem timeframes_read_back (d : datetime) (w : Windows) :
  windows d = Ok w ->
  (year_1000 <= before_start w)%Z ->
  before_timeframe w
  = (strftime (d - 90)%Z ++ " " ++ strftime (d - 1)%Z)%string
  /\ after_timeframe w
     = (strftime (d + 1)%Z ++ " " ++ strftime (d + 90)%Z)%string
  /\ Forall (fun day : datetime =>
               String.length (strftime day) = 10%nat
               /\ strptime (strftime day) = Ok day)
            [(d - 90)%Z; (d - 1)%Z; (d + 1)%Z; (d + 90)%Z].
Proof.
  intros Hw Hyear. destruct (windows_bounds d w Hw) as [[Hlo Hhi] ->].
  split; [reflexivity |]. split; [reflexivity |].
  repeat constructor; try apply strftime_length;
    apply strptime_strftime; lia.
Qed.

Lemma timeframes_read_back_witness :
  windows 738399%Z = Ok example_windows
  /\ (year_1000 <= before_start example_windows)%Z
  /\ before_timeframe example_windows = "2022-06-03 2022-08-31"%string
  /\ Forall (fun day : datetime =>
               String.length (strftime day) = 10%nat
               /\ strptime (strftime day) = Ok day)
            [738309%Z; 738398%Z; 738400%Z; 738489%Z].
Proof.
  assert (Hw : windows 738399%Z = Ok example_windows) by reflexivity.
  assert (Hyear : (year_1000 <= before_start example_windows)%Z)
    by (vm_compute; discriminate).
  split; [exact Hw |]. split; [exact Hyear |].
  split; [reflexivity |].
  exact (proj2 (proj2 (timeframes_read_back 738399%Z example_windows Hw Hyear))).
Defined.
